(** * The pgvector store of the RAG chatbot: chat history and PDF fragments

    A shallow embedding of [utils/pgvector_db.py]: the two mapped tables
    ([chat_history], [pdf_embeddings]), the SQLAlchemy session the functions
    open, and the functions themselves, followed by the properties of the
    retrieval engine that the specification states about them. *)

From Stdlib Require Import ZArith Lia.
From stdpp Require Import base tactics option list sorting strings pretty.

Open Scope string_scope.
Open Scope list_scope.
Open Scope nat_scope.

(** ** Data model *)

(** [CHAT_HISTORY_LIMIT = 10] *)
Definition CHAT_HISTORY_LIMIT : nat := 10.

(** Values found in a langchain [Document.metadata] dict: the development
    covers dicts whose values are [str], [int] or [float].  A Python float is
    only ever compared in this module (timestamps, distances), never computed
    with, so it is represented by an integer with the same order. *)
Inductive MetaVal : Type :=
  | MStr (s : string)
  | MInt (z : Z)
  | MFloat (t : Z).

Global Instance MetaVal_eq_dec : EqDecision MetaVal.
Proof. solve_decision. Defined.

(** A Python dict with string keys, in insertion order. *)
Definition Metadata : Type := list (string * MetaVal).

(** [d.get(key, default)] *)
Fixpoint dict_get (d : Metadata) (key : string) (default : MetaVal) : MetaVal :=
  match d with
  | [] => default
  | (k, v) :: d' => if decide (k = key) then v else dict_get d' key default
  end.

(** [langchain_core.documents.Document] *)
Record Document : Type := mkDocument {
  page_content : string;
  metadata : Metadata
}.

Global Instance Document_eq_dec : EqDecision Document.
Proof. solve_decision. Defined.

(** Row of table [chat_history].  [timestamp] is a [Float] column holding
    [time.time()]; the code only sorts by it. *)
Module ChatHistory.
Record t {Vec : Type} : Type := mk {
  id : string;
  user_id : string;
  message : string;
  embedding : Vec;
  timestamp : Z
}.
Arguments t : clear implicits.
Arguments mk {Vec}.
End ChatHistory.

(** Row of table [pdf_embeddings]. *)
Module PDFEmbedding.
Record t {Vec : Type} : Type := mk {
  id : string;
  user_id : string;
  filename : string;
  source : string;
  is_public : Z;
  chunk_text : string;
  embedding : Vec;
  metadata_json : string
}.
Arguments t : clear implicits.
Arguments mk {Vec}.
End PDFEmbedding.

(** Exceptions the module's [try] blocks can see. *)
Inductive exn : Type :=
| EmbeddingError    (* the OpenAI embedding call failed *)
| OperationalError  (* the database cannot be reached *)
| IntegrityError    (* a primary key is already taken *)
| DataError.        (* a bound value does not fit its column *)

Inductive result (A : Type) : Type :=
| Ok (a : A)
| Raise (e : exn).
Arguments Ok {A} a.
Arguments Raise {A} e.

(** ** The database engine

    [ORDER BY key] returns the selected rows sorted by ascending [key]; SQL
    leaves the relative order of rows with equal keys to the engine.  An
    engine is therefore any function with these two laws, and the functions
    below are stated for every engine. *)
Class QueryEngine : Type := {
  order_by : ∀ {A : Type}, (A → Z) → list A → list A;
  order_by_perm : ∀ (A : Type) (key : A → Z) (l : list A),
    order_by key l ≡ₚ l;
  order_by_sorted : ∀ (A : Type) (key : A → Z) (l : list A),
    StronglySorted (λ a b, (key a ≤ key b)%Z) (order_by key l)
}.

(** PostgreSQL's conversions that the model does not compute: the text it
    stores for a Python float bound to a [String] column, the integer it
    stores for one bound to an [Integer] column, and its integer input
    function, which reads the integer of a text.  [None]: the value is
    rejected. *)
Class ValueCasts : Type := {
  float_text : Z → string;
  float_int4 : Z → option Z;
  text_int4 : string → option Z
}.

(** [SELECT DISTINCT] returns every selected value once; SQL leaves the
    order of the result to the engine. *)
Class DistinctEngine : Type := {
  select_distinct : ∀ {A : Type} `{EqDecision A}, list A → list A;
  select_distinct_NoDup : ∀ (A : Type) `{EqDecision A} (l : list A),
    NoDup (select_distinct l);
  select_distinct_elem : ∀ (A : Type) `{EqDecision A} (l : list A) (x : A),
    x ∈ select_distinct l ↔ x ∈ l
}.

Section PgVectorDb.
Context {Vec : Type}.
(** pgvector's [<=>] operator, [embedding.cosine_distance(q)]: the
    distance of a stored vector (first argument) to the query vector.  The
    code only sorts by it, so its float8 value is an integer here as well. *)
Variable cosine_distance : Vec → Vec → Z.
(** Python's [str] on a dict. *)
Variable py_str : Metadata → string.
Context {engine : QueryEngine}.

Abbreviation ChatRow := (ChatHistory.t Vec).
Abbreviation PdfRow := (PDFEmbedding.t Vec).

(** The two tables, rows in insertion order. *)
Record DB : Type := mkDB {
  chat_history : list ChatRow;
  pdf_embeddings : list PdfRow
}.

(** What the outside world answers during one call of a function of the
    module: whether PostgreSQL is reachable, what the embedding model
    returns ([None]: the call raises), the clock, and the uuids drawn. *)
Record Env : Type := mkEnv {
  db_up : bool;
  embed_query : string → option Vec;
  embed_documents : list string → option (list Vec);
  time_time : Z;
  uuid4 : nat → string
}.

(** *** The session: a unit of work over one transaction *)
Record Session : Type := mkSession {
  committed : DB;               (* what other sessions see *)
  txn : DB;                     (* the state inside the open transaction *)
  new_chat : list ChatRow;      (* session.add, not yet flushed *)
  new_pdf : list PdfRow;
  deleted_chat : list ChatRow   (* session.delete, not yet flushed *)
}.

(** [SessionLocal()] *)
Definition SessionLocal (d : DB) : Session :=
  mkSession d d [] [] [].

Definition M (A : Type) : Type := Session → result A * Session.

Global Instance M_ret : MRet M := λ A a s, (Ok a, s).
Global Instance M_bind : MBind M := λ A B f m s,
  match m s with
  | (Ok a, s') => f a s'
  | (Raise e, s') => (Raise e, s')
  end.

Definition raise {A : Type} (e : exn) : M A := λ s, (Raise e, s).

(** [try: body / except Exception as e: handler(e)] *)
Definition try_except {A : Type} (body : M A) (handler : exn → M A) : M A :=
  λ s, match body s with
       | (Ok a, s') => (Ok a, s')
       | (Raise e, s') => handler e s'
       end.

(** [for x in xs: body(x)] *)
Fixpoint for_each {A : Type} (xs : list A) (body : A → M unit) : M unit :=
  match xs with
  | [] => mret tt
  | x :: xs' => body x ;; for_each xs' body
  end.

(** The primary key of every row to insert is free and new keys are
    pairwise distinct. *)
Definition keys_free (old new : list string) : Prop :=
  NoDup new ∧ Forall (λ k, k ∉ old) new.

Global Instance keys_free_dec old new : Decision (keys_free old new).
Proof. unfold keys_free. apply _. Defined.

(** Whatever talks to PostgreSQL needs the connection first. *)
Definition connect (env : Env) : M unit := λ s,
  if db_up env then (Ok tt, s) else (Raise OperationalError, s).

(** Flush: the pending INSERTs are sent first, then the pending DELETEs
    (by primary key).  A taken primary key aborts with IntegrityError. *)
Definition flush : M unit := λ s,
  if decide (keys_free (ChatHistory.id <$> chat_history (txn s))
                       (ChatHistory.id <$> new_chat s)
             ∧ keys_free (PDFEmbedding.id <$> pdf_embeddings (txn s))
                         (PDFEmbedding.id <$> new_pdf s))
  then
    let chat1 := chat_history (txn s) ++ new_chat s in
    let gone := ChatHistory.id <$> deleted_chat s in
    (Ok tt,
     mkSession (committed s)
               (mkDB (filter (λ r, ChatHistory.id r ∉ gone) chat1)
                     (pdf_embeddings (txn s) ++ new_pdf s))
               [] [] [])
  else (Raise IntegrityError, s).

(** A SELECT, a DML statement and COMMIT inside the open transaction. *)
Definition read {A : Type} (q : DB → A) : M A := λ s,
  (Ok (q (txn s)), s).

Definition write (stmt : DB → DB) : M unit := λ s,
  (Ok tt, mkSession (committed s) (stmt (txn s))
                    (new_chat s) (new_pdf s) (deleted_chat s)).

Definition publish : M unit := λ s,
  (Ok tt, mkSession (txn s) (txn s) [] [] []).

(** [session.query(...)...all()] / [.count()]: autoflush, then read. *)
Definition session_query {A : Type} (env : Env) (q : DB → A) : M A :=
  connect env ;; flush ;; read q.

(** [session.query(ChatHistory).filter_by(user_id=u).delete()] and the
    like: autoflush, then one DELETE statement inside the transaction. *)
Definition session_execute (env : Env) (stmt : DB → DB) : M unit :=
  connect env ;; flush ;; write stmt.

(** [session.add(row)] *)
Definition session_add_chat (r : ChatRow) : M unit := λ s,
  (Ok tt, mkSession (committed s) (txn s)
                    (new_chat s ++ [r]) (new_pdf s) (deleted_chat s)).

Definition session_add_pdf (r : PdfRow) : M unit := λ s,
  (Ok tt, mkSession (committed s) (txn s)
                    (new_chat s) (new_pdf s ++ [r]) (deleted_chat s)).

(** [session.delete(row)] *)
Definition session_delete (r : ChatRow) : M unit := λ s,
  (Ok tt, mkSession (committed s) (txn s)
                    (new_chat s) (new_pdf s) (deleted_chat s ++ [r])).

(** [session.commit()] *)
Definition session_commit (env : Env) : M unit :=
  connect env ;; flush ;; publish.

(** [session.rollback()] *)
Definition session_rollback : M unit := λ s,
  (Ok tt, SessionLocal (committed s)).

(** One call: open a session on the database, run the body, and close the
    session ([finally: session.close()]), which drops what is uncommitted. *)
Definition call {A : Type} (body : M A) (d : DB) : result A * DB :=
  let '(r, s) := body (SessionLocal d) in (r, committed s).

(** [embedding.embed_query(text)] *)
Definition embedding_embed_query (env : Env) (text : string) : M Vec :=
  match embed_query env text with
  | Some v => mret v
  | None => raise EmbeddingError
  end.

(** [embedding.embed_documents(texts)] *)
Definition embedding_embed_documents (env : Env) (texts : list string)
  : M (list Vec) :=
  match embed_documents env texts with
  | Some vs => mret vs
  | None => raise EmbeddingError
  end.

(** *** Chat history *)

(** [.filter_by(user_id=user_id)] on [chat_history] *)
Definition chat_of (user_id : string) (rows : list ChatRow) : list ChatRow :=
  filter (λ r, ChatHistory.user_id r = user_id) rows.

Definition save_user_message_body (env : Env) (user_id message : string)
  : M unit :=
  count ← session_query env (λ d, length (chat_of user_id (chat_history d)));
  (if decide (CHAT_HISTORY_LIMIT ≤ count) then
     oldest ← session_query env (λ d,
       take (count - CHAT_HISTORY_LIMIT + 1)
            (order_by ChatHistory.timestamp
                      (chat_of user_id (chat_history d))));
     for_each oldest session_delete
   else mret tt) ;;
  emb ← embedding_embed_query env message;
  session_add_chat
    (ChatHistory.mk (uuid4 env 0) user_id message emb (time_time env)) ;;
  session_commit env.

(** [save_user_message(user_id, message)]: any exception rolls the
    session back and is raised again. *)
Definition save_user_message (env : Env) (user_id message : string)
  : DB → result unit * DB :=
  call (try_except (save_user_message_body env user_id message)
                   (λ e, session_rollback ;; raise e)).

(** The rows [save_user_message] marks for deletion. *)
Definition oldest_of (user_id : string) (rows : list ChatRow) : list ChatRow :=
  let count := length (chat_of user_id rows) in
  if decide (CHAT_HISTORY_LIMIT ≤ count) then
    take (count - CHAT_HISTORY_LIMIT + 1)
         (order_by ChatHistory.timestamp (chat_of user_id rows))
  else [].

(** The table after a successful [save_user_message]. *)
Definition saved (user_id : string) (new : ChatRow) (rows : list ChatRow)
  : list ChatRow :=
  filter (λ r, ChatHistory.id r ∉ ChatHistory.id <$> oldest_of user_id rows)
         (rows ++ [new]).

(** How many rows a user with [count] stored turns loses on the next save. *)
Definition evict_count (count : nat) : nat :=
  if decide (CHAT_HISTORY_LIMIT ≤ count) then count - CHAT_HISTORY_LIMIT + 1
  else 0.

(** *** Sequences of calls

    A call of [save_user_message] with what the outside world answers to
    it; the turn it stores when it goes through; and a run of calls from
    the empty database, which also keeps the log of every turn stored. *)
Record Call : Type := mkCall {
  call_env : Env;
  call_user_id : string;
  call_message : string
}.

Definition turn_of (c : Call) : list ChatRow :=
  match embed_query (call_env c) (call_message c) with
  | Some emb =>
      [ChatHistory.mk (uuid4 (call_env c) 0) (call_user_id c) (call_message c)
                      emb (time_time (call_env c))]
  | None => []
  end.

Definition step (st : DB * list ChatRow) (c : Call) : DB * list ChatRow :=
  match save_user_message (call_env c) (call_user_id c) (call_message c)
                          st.1 with
  | (Ok _, d') => (d', st.2 ++ turn_of c)
  | (Raise _, d') => (d', st.2)
  end.

Definition run_from (st : DB * list ChatRow) (calls : list Call)
  : DB * list ChatRow :=
  fold_left step calls st.

Definition run (calls : list Call) : DB * list ChatRow :=
  run_from (mkDB [] [], []) calls.

(** [retained] is the [limit] most recent turns of [log] by timestamp: it
    has [limit] turns (all of [log] when that is shorter), the rest of the
    log was evicted, and nothing evicted is more recent than a turn kept. *)
Definition most_recent (limit : nat) (log retained : list ChatRow) : Prop :=
  length retained = min limit (length log) ∧
  ∃ evicted, log ≡ₚ evicted ++ retained ∧
    ∀ e r, e ∈ evicted → r ∈ retained →
      (ChatHistory.timestamp e ≤ ChatHistory.timestamp r)%Z.

(** The clock readings of the calls of a run, in call order. *)
Definition clock (calls : list Call) : list Z :=
  (λ c, time_time (call_env c)) <$> calls.

(** What a run maintains when the clock never goes back. *)
Definition run_inv (calls : list Call) (st : DB * list ChatRow) : Prop :=
  NoDup (ChatHistory.id <$> chat_history st.1) ∧
  (∀ r, r ∈ st.2 → ChatHistory.timestamp r ∈ clock calls) ∧
  ∀ u, most_recent CHAT_HISTORY_LIMIT
         (chat_of u st.2) (chat_of u (chat_history st.1)).

Definition memory_document (r : ChatRow) : Document :=
  mkDocument (ChatHistory.message r)
             [("user_id", MStr (ChatHistory.user_id r));
              ("timestamp", MFloat (ChatHistory.timestamp r))].

(** The rows the similarity query of [retrieve_user_memory] selects. *)
Definition memory_results (query_emb : Vec) (user_id : string) (k : nat)
    (d : DB) : list ChatRow :=
  take k (order_by (λ r, cosine_distance (ChatHistory.embedding r) query_emb)
                   (chat_of user_id (chat_history d))).

(** [retrieve_user_memory(user_id, query, k)] *)
Definition retrieve_user_memory (env : Env) (user_id query : string) (k : nat)
  : DB → result (list Document) * DB :=
  call (try_except
          (query_emb ← embedding_embed_query env query;
           results ← session_query env (memory_results query_emb user_id k);
           mret (memory_document <$>
                   filter (λ r, ChatHistory.message r ≠ "") results))
          (λ _, mret [])).

(** [get_all_history(user_id)] *)
Definition get_all_history (env : Env) (user_id : string)
  : DB → result (list string) * DB :=
  call (results ← session_query env (λ d,
          order_by ChatHistory.timestamp (chat_of user_id (chat_history d)));
        mret (ChatHistory.message <$> results)).

(** [clear_history_by_user(user_id)] *)
Definition clear_history_by_user (env : Env) (user_id : string)
  : DB → result unit * DB :=
  call (session_execute env (λ d,
          mkDB (filter (λ r, ChatHistory.user_id r ≠ user_id) (chat_history d))
               (pdf_embeddings d)) ;;
        session_commit env).

(** *** PDF embeddings *)

Context {casts : ValueCasts}.

(** The driver refuses a string that contains the NUL character. *)
Fixpoint has_nul (s : string) : bool :=
  match s with
  | EmptyString => false
  | String a s' => if Ascii.eqb a Ascii.zero then true else has_nul s'
  end.

(** The range of an [Integer] column. *)
Definition int4 (z : Z) : Prop := (-2147483648 ≤ z ≤ 2147483647)%Z.

Global Instance int4_dec z : Decision (int4 z).
Proof. unfold int4. apply _. Defined.

(** What a [String] column holds when a Python value is bound to it: the
    value is sent as it is and PostgreSQL casts it on assignment, a [str]
    to itself, an [int] to its decimal text, a [float] to its text.  The
    size limits of PostgreSQL (a field of 1 GB, the digits of a numeric)
    are not modelled. *)
Definition varchar_of (v : MetaVal) : option string :=
  match v with
  | MStr s => if has_nul s then None else Some s
  | MInt z => Some (pretty z)
  | MFloat t => Some (float_text t)
  end.

(** What an [Integer] column holds: an [int] within int4, the integer a
    [str] reads as, the integer a [float] rounds to; anything else is
    rejected. *)
Definition int4_of (v : MetaVal) : option Z :=
  match v with
  | MStr s => if has_nul s then None else text_int4 s
  | MInt z => if decide (int4 z) then Some z else None
  | MFloat t => float_int4 t
  end.

(** A rejected value makes the INSERT fail. *)
Definition bound {A : Type} (o : option A) : M A :=
  match o with
  | Some a => mret a
  | None => raise DataError
  end.

Definition column_string (v : MetaVal) : M string := bound (varchar_of v).

Definition column_integer (v : MetaVal) : M Z := bound (int4_of v).

(** The body of the loop of [insert_new_chunks]; [i] counts the rows, each
    of which draws its own uuid.  A value the database refuses makes the
    INSERT fail when the session is flushed; the [except] clause that
    catches it is the same, so it is raised here, where the row is built.
    [str(chunk.metadata)] escapes what it prints and is always accepted. *)
Definition insert_chunk (env : Env) (item : nat * (Document * Vec)) : M unit :=
  let '(i, (chunk, emb)) := item in
  user_id ← column_string (dict_get (metadata chunk) "user_id" (MStr ""));
  filename ← column_string (dict_get (metadata chunk) "filename" (MStr ""));
  source ← column_string (dict_get (metadata chunk) "source" (MStr ""));
  is_public ← column_integer (dict_get (metadata chunk) "is_public" (MInt 0));
  chunk_text ← column_string (MStr (page_content chunk));
  session_add_pdf
    (PDFEmbedding.mk (uuid4 env i) user_id filename source is_public
                     chunk_text emb (py_str (metadata chunk))).

(** [insert_new_chunks(chunks)]: any exception rolls the session back and
    the function returns [False]. *)
Definition insert_new_chunks (env : Env) (chunks : list Document)
  : DB → result bool * DB :=
  call (try_except
          (let texts := page_content <$> chunks in
           embeddings_list ← embedding_embed_documents env texts;
           let pairs := zip chunks embeddings_list in
           for_each (zip (seq 0 (length pairs)) pairs) (insert_chunk env) ;;
           session_commit env ;;
           mret true)
          (λ _, session_rollback ;; mret false)).

(** Row [r] holds chunk [chunk] and its vector [emb] as
    [insert_new_chunks] builds it. *)
Definition stored_as (chunk : Document) (emb : Vec) (r : PdfRow) : Prop :=
  varchar_of (dict_get (metadata chunk) "user_id" (MStr ""))
    = Some (PDFEmbedding.user_id r) ∧
  varchar_of (dict_get (metadata chunk) "filename" (MStr ""))
    = Some (PDFEmbedding.filename r) ∧
  varchar_of (dict_get (metadata chunk) "source" (MStr ""))
    = Some (PDFEmbedding.source r) ∧
  int4_of (dict_get (metadata chunk) "is_public" (MInt 0))
    = Some (PDFEmbedding.is_public r) ∧
  has_nul (page_content chunk) = false ∧
  PDFEmbedding.chunk_text r = page_content chunk ∧
  PDFEmbedding.embedding r = emb ∧
  PDFEmbedding.metadata_json r = py_str (metadata chunk).

(** [(PDFEmbedding.user_id == user_id) | (PDFEmbedding.is_public == 1)] *)
Definition pdf_visible (user_id : string) (r : PdfRow) : Prop :=
  PDFEmbedding.user_id r = user_id ∨ PDFEmbedding.is_public r = 1%Z.

Global Instance pdf_visible_dec user_id r : Decision (pdf_visible user_id r).
Proof. unfold pdf_visible. apply _. Defined.

(** The rows the similarity query of [retrieve_pdf_for_user] selects. *)
Definition pdf_results (query_emb : Vec) (user_id : string) (k : nat)
    (d : DB) : list PdfRow :=
  take k (order_by (λ r, cosine_distance (PDFEmbedding.embedding r) query_emb)
                   (filter (pdf_visible user_id) (pdf_embeddings d))).

Definition pdf_document (r : PdfRow) : Document :=
  mkDocument (PDFEmbedding.chunk_text r)
             [("user_id", MStr (PDFEmbedding.user_id r));
              ("filename", MStr (PDFEmbedding.filename r));
              ("source", MStr (PDFEmbedding.source r));
              ("is_public", MInt (PDFEmbedding.is_public r))].

(** [retrieve_pdf_for_user(user_id, query, k)] *)
Definition retrieve_pdf_for_user (env : Env) (user_id query : string) (k : nat)
  : DB → result (list Document) * DB :=
  call (try_except
          (query_emb ← embedding_embed_query env query;
           results ← session_query env (pdf_results query_emb user_id k);
           mret (pdf_document <$> results))
          (λ _, mret [])).

(** *** The remaining functions of the module *)

(** [clear_history_all()] *)
Definition clear_history_all (env : Env) : DB → result unit * DB :=
  call (session_execute env (λ d, mkDB [] (pdf_embeddings d)) ;;
        session_commit env).

(** [clear_pdf_by_source(source_name)] *)
Definition clear_pdf_by_source (env : Env) (source_name : string)
  : DB → result unit * DB :=
  call (session_execute env (λ d,
          mkDB (chat_history d)
               (filter (λ r, PDFEmbedding.source r ≠ source_name)
                       (pdf_embeddings d))) ;;
        session_commit env).

(** [clear_pdf_by_source_userid(source_name, user_id)] *)
Definition clear_pdf_by_source_userid (env : Env) (source_name user_id : string)
  : DB → result unit * DB :=
  call (session_execute env (λ d,
          mkDB (chat_history d)
               (filter (λ r, ¬ (PDFEmbedding.source r = source_name ∧
                                PDFEmbedding.user_id r = user_id))
                       (pdf_embeddings d))) ;;
        session_commit env).

(** [clear_pdf_by_user(user_id)] *)
Definition clear_pdf_by_user (env : Env) (user_id : string)
  : DB → result unit * DB :=
  call (session_execute env (λ d,
          mkDB (chat_history d)
               (filter (λ r, PDFEmbedding.user_id r ≠ user_id)
                       (pdf_embeddings d))) ;;
        session_commit env).

(** [clear_all_pdf()] *)
Definition clear_all_pdf (env : Env) : DB → result unit * DB :=
  call (session_execute env (λ d, mkDB (chat_history d) []) ;;
        session_commit env).

Context {distinct_engine : DistinctEngine}.

(** One entry of [get_pdf_sources]: [{"source": .., "ingested_by": ..}]. *)
Definition source_entry (row : string * string) : Metadata :=
  [("source", MStr row.1); ("ingested_by", MStr row.2)].

Global Instance source_entry_inj : Inj (=) (=) source_entry.
Proof. intros [a b] [a' b'] [= -> ->]. done. Qed.

(** [get_pdf_sources()] *)
Definition get_pdf_sources (env : Env) : DB → result (list Metadata) * DB :=
  call (results ← session_query env (λ d,
          select_distinct
            ((λ r, (PDFEmbedding.source r, PDFEmbedding.user_id r))
               <$> pdf_embeddings d));
        mret (source_entry <$> results)).

(** [get_available_user_ids()] *)
Definition get_available_user_ids (env : Env) : DB → result (list string) * DB :=
  call (results ← session_query env (λ d,
          select_distinct (ChatHistory.user_id <$> chat_history d));
        mret results).

(** Both tables respect their primary key. *)
Definition primary_keys (d : DB) : Prop :=
  NoDup (ChatHistory.id <$> chat_history d) ∧
  NoDup (PDFEmbedding.id <$> pdf_embeddings d).

(** The row [insert_new_chunks] builds for the [i]-th chunk of a batch when
    the database accepts its values. *)
Definition chunk_row (env : Env) (item : nat * (Document * Vec)) : PdfRow :=
  let md := metadata item.2.1 in
  PDFEmbedding.mk (uuid4 env item.1)
    (default "" (varchar_of (dict_get md "user_id" (MStr ""))))
    (default "" (varchar_of (dict_get md "filename" (MStr ""))))
    (default "" (varchar_of (dict_get md "source" (MStr ""))))
    (default 0%Z (int4_of (dict_get md "is_public" (MInt 0))))
    (page_content item.2.1) item.2.2 (py_str md).

(** The database accepts the values of a chunk: its text and the strings
    of its metadata are free of NUL, and [is_public] is within int4. *)
Definition columns_fit (chunk : Document) : Prop :=
  is_Some (varchar_of (dict_get (metadata chunk) "user_id" (MStr ""))) ∧
  is_Some (varchar_of (dict_get (metadata chunk) "filename" (MStr ""))) ∧
  is_Some (varchar_of (dict_get (metadata chunk) "source" (MStr ""))) ∧
  is_Some (int4_of (dict_get (metadata chunk) "is_public" (MInt 0))) ∧
  has_nul (page_content chunk) = false.

(** What a run maintains when every call reads a later clock: the rows of
    a user are the last [CHAT_HISTORY_LIMIT] turns recorded for the user,
    in the order of the calls. *)
Definition run_inv_strict (calls : list Call) (st : DB * list ChatRow) : Prop :=
  NoDup (ChatHistory.id <$> chat_history st.1) ∧
  StronglySorted
    (λ a b, (ChatHistory.timestamp a < ChatHistory.timestamp b)%Z) st.2 ∧
  (∀ r, r ∈ st.2 → ChatHistory.timestamp r ∈ clock calls) ∧
  ∀ u, chat_of u (chat_history st.1) =
       drop (length (chat_of u st.2) - CHAT_HISTORY_LIMIT) (chat_of u st.2).

End PgVectorDb.

(** ** Two database engines

    Both sort with a merge sort on the key; the first reads the table in
    insertion order, the second from its end, as a backward scan does.  They
    satisfy the same laws and differ only on rows with equal keys. *)
Definition key_le {A : Type} (key : A → Z) : relation A :=
  λ a b, (key a ≤ key b)%Z.

Global Instance key_le_dec {A : Type} (key : A → Z) :
  RelDecision (key_le key).
Proof. intros a b. unfold key_le. apply _. Defined.

Global Instance key_le_total {A : Type} (key : A → Z) : Total (key_le key).
Proof. intros a b. unfold key_le. lia. Qed.

Global Instance key_le_trans {A : Type} (key : A → Z) :
  Transitive (key_le key).
Proof. intros a b c. unfold key_le. lia. Qed.

Definition forward_scan_engine : QueryEngine :=
  {| order_by A key l := merge_sort (key_le key) l;
     order_by_perm A key l := merge_sort_Permutation (key_le key) l;
     order_by_sorted A key l := StronglySorted_merge_sort (key_le key) l |}.

Definition backward_scan_engine : QueryEngine :=
  {| order_by A key l := merge_sort (key_le key) (reverse l);
     order_by_perm A key l :=
       perm_trans (merge_sort_Permutation (key_le key) (reverse l))
                  (reverse_Permutation l);
     order_by_sorted A key l :=
       StronglySorted_merge_sort (key_le key) (reverse l) |}.

(** An engine for [SELECT DISTINCT]: first occurrences, in table order. *)
Definition first_occurrence_engine : DistinctEngine :=
  {| select_distinct A _ l := remove_dups l;
     select_distinct_NoDup A _ l := NoDup_remove_dups l;
     select_distinct_elem A _ l x := elem_of_remove_dups l x |}.

(** ** Concrete runs

    The embedding model of the examples maps a text to its length and the
    distance is the absolute difference: two texts of one length have one
    vector, hence one distance to any query under any metric. *)
Definition length_embedding (text : string) : Z :=
  Z.of_nat (String.length text).

Definition abs_distance (v q : Z) : Z := Z.abs (v - q).

(** Stand-ins for the conversions of floats and of texts to integers; no
    example binds a float, or a text to an integer column. *)
Global Instance example_casts : ValueCasts :=
  {| float_text t := pretty t;
     float_int4 t := if decide (int4 t) then Some t else None;
     text_int4 _ := None |}.

(** A stand-in for Python's [str] on a dict: the keys, comma separated. *)
Definition keys_str (md : Metadata) : string :=
  String.concat "," (fst <$> md).

(** Python's [str] on a dict, for keys and strings free of quotes,
    backslashes and control characters and for integers; a float is shown
    by the integer that stands for it. *)
Definition repr (v : MetaVal) : string :=
  match v with
  | MStr s => ("'" ++ s ++ "'")%string
  | MInt z => pretty z
  | MFloat t => pretty t
  end.

Definition dict_str (md : Metadata) : string :=
  ("{" ++ String.concat ", "
            ((λ kv, "'" ++ kv.1 ++ "': " ++ repr kv.2) <$> md) ++ "}")%string.

(** The world answers: database up, embeddings returned, clock at [now],
    uuids [tag-0], [tag-1], ... *)
Definition env_ok (now : Z) (tag : string) : @Env Z :=
  mkEnv true
        (λ text, Some (length_embedding text))
        (λ texts, Some (length_embedding <$> texts))
        now
        (λ i, (tag ++ "-" ++ String (Ascii.ascii_of_nat (48 + i)) "")%string).

(** The same with PostgreSQL unreachable, and with the embedding model
    unreachable. *)
Definition env_db_down (now : Z) (tag : string) : @Env Z :=
  mkEnv false
        (λ text, Some (length_embedding text))
        (λ texts, Some (length_embedding <$> texts))
        now
        (uuid4 (env_ok now tag)).

Definition env_embedding_down (now : Z) (tag : string) : @Env Z :=
  mkEnv true (λ _, None) (λ _, None) now (uuid4 (env_ok now tag)).

Definition say (now : Z) (tag user_id message : string) : @Call Z :=
  mkCall (env_ok now tag) user_id message.

(** User [u1] records [msg01] .. [msg12], one per clock tick. *)
Definition twelve_calls : list (@Call Z) :=
  [say 1 "a" "u1" "msg01"; say 2 "b" "u1" "msg02"; say 3 "c" "u1" "msg03";
   say 4 "d" "u1" "msg04"; say 5 "e" "u1" "msg05"; say 6 "f" "u1" "msg06";
   say 7 "g" "u1" "msg07"; say 8 "h" "u1" "msg08"; say 9 "i" "u1" "msg09";
   say 10 "j" "u1" "msg10"; say 11 "k" "u1" "msg11"; say 12 "l" "u1" "msg12"].

(** The same, but the first two turns fall on one clock reading. *)
Definition tied_calls : list (@Call Z) :=
  [say 1 "a" "u1" "msg01"; say 1 "b" "u1" "msg02"; say 3 "c" "u1" "msg03";
   say 4 "d" "u1" "msg04"; say 5 "e" "u1" "msg05"; say 6 "f" "u1" "msg06";
   say 7 "g" "u1" "msg07"; say 8 "h" "u1" "msg08"; say 9 "i" "u1" "msg09";
   say 10 "j" "u1" "msg10"; say 11 "k" "u1" "msg11"].

(** Twelve turns again, but the clock is set back before the eleventh. *)
Definition clock_back_calls : list (@Call Z) :=
  [say 2 "a" "u1" "msg01"; say 3 "b" "u1" "msg02"; say 4 "c" "u1" "msg03";
   say 5 "d" "u1" "msg04"; say 6 "e" "u1" "msg05"; say 7 "f" "u1" "msg06";
   say 8 "g" "u1" "msg07"; say 9 "h" "u1" "msg08"; say 10 "i" "u1" "msg09";
   say 11 "j" "u1" "msg10"; say 0 "k" "u1" "msg11"; say 1 "l" "u1" "msg12"].

(** [u1] at the limit: the database after the first ten of [twelve_calls]. *)
Definition db_full : @DB Z :=
  (run (engine := forward_scan_engine) (take 10 twelve_calls)).1.

(** Two users, one turn each; [u1] then says the empty string. *)
Definition db_two_users : @DB Z :=
  (run (engine := forward_scan_engine)
       [say 1 "a" "u1" "hello"; say 2 "b" "u2" "world";
        say 3 "c" "u1" ""; say 4 "d" "u1" "hi"]).1.

Definition chunk (text user_id source : string) (is_public : Z) : Document :=
  mkDocument text [("user_id", MStr user_id); ("filename", MStr source);
                   ("source", MStr source); ("is_public", MInt is_public);
                   ("page", MInt 1)].

(** Five fragments of [doc.pdf], private to [u1]. *)
Definition five_chunks : list Document :=
  [chunk "one" "u1" "doc.pdf" 0; chunk "two" "u1" "doc.pdf" 0;
   chunk "three" "u1" "doc.pdf" 0; chunk "four" "u1" "doc.pdf" 0;
   chunk "five" "u1" "doc.pdf" 0].

(** [u1] holds [five_chunks]; [u2] holds a private and a public fragment. *)
Definition db_docs : @DB Z :=
  (insert_new_chunks keys_str (env_ok 2 "q")
     [chunk "mine" "u2" "b.pdf" 0; chunk "ours" "u2" "c.pdf" 1]
     (insert_new_chunks keys_str (env_ok 1 "p") five_chunks
        (mkDB [] [])).2).2.

(** A public fragment whose metadata name the owner by the integer [5]. *)
Definition numbered_chunk : Document :=
  mkDocument "text" [("user_id", MInt 5); ("filename", MStr "a.pdf");
                     ("source", MStr "a.pdf"); ("is_public", MInt 1);
                     ("page", MInt 7)].

(** An embedding model that answers a batch with two vectors only. *)
Definition env_two_vectors (now : Z) (tag : string) : @Env Z :=
  mkEnv true
        (λ text, Some (length_embedding text))
        (λ texts, Some (take 2 (length_embedding <$> texts)))
        now
        (uuid4 (env_ok now tag)).

(** Two chunks, the second without any metadata. *)
Definition bare_chunks : list Document :=
  [chunk "signed" "u1" "doc.pdf" 0; mkDocument "anonymous" []].

(** ** Lists keyed by a primary key *)

Section KeyedLists.
Context {A K : Type} `{EqDecision K} (key : A → K).

Lemma filter_ext_elem (P Q : A → Prop) `{∀ x, Decision (P x)}
    `{∀ x, Decision (Q x)} (l : list A) :
  (∀ x, x ∈ l → P x ↔ Q x) → filter P l = filter Q l.
Proof.
  induction l as [|x l IH]; intros HPQ; [done|].
  rewrite !filter_cons.
  rewrite IH by (intros y Hy; apply HPQ; by right).
  destruct (decide (P x)) as [HP|HP], (decide (Q x)) as [HQ|HQ]; try done.
  - exfalso. apply HQ, HPQ; [by left|done].
  - exfalso. apply HP, HPQ; [by left|done].
Qed.

Lemma filter_all (P : A → Prop) `{∀ x, Decision (P x)} (l : list A) :
  (∀ x, x ∈ l → P x) → filter P l = l.
Proof.
  induction l as [|x l IH]; intros HP; [done|].
  rewrite filter_cons, decide_True by (apply HP; by left).
  rewrite IH; [done|]. intros y Hy. apply HP. by right.
Qed.

Lemma filter_none (P : A → Prop) `{∀ x, Decision (P x)} (l : list A) :
  (∀ x, x ∈ l → ¬ P x) → filter P l = [].
Proof.
  induction l as [|x l IH]; intros HP; [done|].
  rewrite filter_cons, decide_False by (apply HP; by left).
  apply IH. intros y Hy. apply HP. by right.
Qed.

(** A primary key identifies a row of the table. *)
Lemma key_inj (l : list A) (x y : A) :
  NoDup (key <$> l) → x ∈ l → y ∈ l → key x = key y → x = y.
Proof.
  induction l as [|z l IH]; intros Hnd Hx Hy Hxy; [by apply elem_of_nil in Hx|].
  rewrite fmap_cons in Hnd. apply NoDup_cons in Hnd as [Hz Hnd].
  apply elem_of_cons in Hx as [->|Hx], Hy as [->|Hy]; try done.
  - exfalso. apply Hz. rewrite Hxy. by apply list_elem_of_fmap_2.
  - exfalso. apply Hz. rewrite <- Hxy. by apply list_elem_of_fmap_2.
  - by apply IH.
Qed.

Lemma NoDup_key_sublist (l1 l2 : list A) :
  l1 `sublist_of` l2 → NoDup (key <$> l2) → NoDup (key <$> l1).
Proof.
  intros Hsub Hnd. eapply sublist_NoDup; [exact Hnd|].
  by apply fmap_sublist.
Qed.

(** Deleting by primary key the first [n] rows of a list leaves the rest. *)
Lemma filter_key_take (n : nat) (l : list A) :
  NoDup (key <$> l) →
  filter (λ r, key r ∉ (key <$> take n l)) l = drop n l.
Proof.
  revert n. induction l as [|x l IH]; intros n Hnd.
  - by destruct n.
  - destruct n as [|n].
    + rewrite take_0, drop_0. apply filter_all. intros y _. apply not_elem_of_nil.
    + rewrite fmap_cons in Hnd. apply NoDup_cons in Hnd as [Hx Hnd].
      cbn [take drop]. rewrite filter_cons, decide_False.
      2:{ intros Hn. apply Hn. rewrite fmap_cons. by left. }
      rewrite <- (IH n Hnd). apply filter_ext_elem. intros y Hy.
      rewrite fmap_cons, not_elem_of_cons. split; [by intros [_ ?]|].
      intros Hy'. split; [|done]. intros Heq. apply Hx. rewrite <- Heq.
      by apply list_elem_of_fmap_2.
Qed.

End KeyedLists.

Lemma StronglySorted_sublist {A : Type} (R : relation A) (l1 l2 : list A) :
  l1 `sublist_of` l2 → StronglySorted R l2 → StronglySorted R l1.
Proof.
  induction 1 as [|x l1 l2 Hsub IH|x l1 l2 Hsub IH]; intros Hsorted.
  - constructor.
  - apply StronglySorted_inv in Hsorted as [Hl2 Hx]. constructor; [by apply IH|].
    apply Forall_forall. intros y Hy. rewrite Forall_forall in Hx.
    apply Hx. by eapply (sublist_subseteq _ _ Hsub).
  - apply StronglySorted_inv in Hsorted as [Hl2 _]. by apply IH.
Qed.

(** ** Properties *)

Section Properties.
Context {Vec : Type}.
Variable cosine_distance : Vec → Vec → Z.
Variable py_str : Metadata → string.
Context {engine : QueryEngine}.
Context {casts : ValueCasts}.

Abbreviation ChatRow := (ChatHistory.t Vec).
Abbreviation PdfRow := (PDFEmbedding.t Vec).
Implicit Types (d : @DB Vec) (env : @Env Vec) (s : @Session Vec).
Implicit Types (st : @DB Vec * list ChatRow) (c : @Call Vec).
Implicit Types (calls : list (@Call Vec)).

(** *** The session *)

Lemma filter_notin_nil {A B : Type} `{EqDecision B} (f : A → B) (l : list A) :
  filter (λ r, f r ∉ []) l = l.
Proof.
  induction l as [|x l IH]; [done|].
  rewrite filter_cons. destruct (decide _) as [_|Hn].
  - by rewrite IH.
  - exfalso. apply Hn. apply not_elem_of_nil.
Qed.

Lemma flush_nothing (c t : @DB Vec) :
  flush (mkSession c t [] [] []) = (Ok tt, mkSession c t [] [] []).
Proof.
  unfold flush.
  cbn [txn new_chat new_pdf deleted_chat committed].
  rewrite !fmap_nil. case_decide as Hk.
  - rewrite !app_nil_r, filter_notin_nil. by destruct t.
  - exfalso. apply Hk. repeat split; constructor.
Qed.

Lemma flush_clean d : flush (SessionLocal d) = (Ok tt, SessionLocal d).
Proof. apply flush_nothing. Qed.

Lemma session_query_clean {A : Type} env (q : DB → A) d :
  session_query env q (SessionLocal d) =
  ((if db_up env then Ok (q d) else Raise OperationalError), SessionLocal d).
Proof.
  unfold session_query, mbind, M_bind, connect.
  destruct (db_up env); [|done]. by rewrite flush_clean.
Qed.

Lemma for_each_session_delete (l : list ChatRow) s :
  for_each l session_delete s =
  (Ok tt, mkSession (committed s) (txn s) (new_chat s) (new_pdf s)
                    (deleted_chat s ++ l)).
Proof.
  revert s. induction l as [|x l IH]; intros s; simpl.
  - rewrite app_nil_r. by destruct s.
  - unfold mbind, M_bind. simpl. rewrite IH. simpl. by rewrite <- app_assoc.
Qed.

Lemma keys_free_one (old : list string) (k : string) :
  keys_free old [k] ↔ k ∉ old.
Proof.
  unfold keys_free. rewrite Forall_singleton. split; [by intros [_ ?]|].
  intros ?. split; [apply NoDup_singleton|done].
Qed.

Lemma flush_save d (r : ChatRow) (gone : list ChatRow) :
  flush (mkSession d d [r] [] gone) =
  if decide (ChatHistory.id r ∉ (ChatHistory.id <$> chat_history d)) then
    (Ok tt,
     mkSession d
       (mkDB (filter (λ x, ChatHistory.id x ∉ (ChatHistory.id <$> gone))
                     (chat_history d ++ [r]))
             (pdf_embeddings d))
       [] [] [])
  else (Raise IntegrityError, mkSession d d [r] [] gone).
Proof.
  unfold flush.
  cbn [txn new_chat new_pdf deleted_chat committed].
  rewrite fmap_nil, app_nil_r. cbn [fmap list_fmap].
  destruct (decide (ChatHistory.id r ∉ (ChatHistory.id <$> chat_history d)))
    as [Hfree|Htaken]; case_decide as Hk; try done.
  - exfalso. apply Hk. split; [by apply keys_free_one|]. split; constructor.
  - exfalso. destruct Hk as [Hk _]. by apply keys_free_one in Hk.
Qed.

(** What one call of [save_user_message] computes. *)
Lemma save_user_message_eq env user_id message d :
  save_user_message env user_id message d =
  if db_up env then
    match embed_query env message with
    | Some emb =>
        if decide (uuid4 env 0 ∉ (ChatHistory.id <$> chat_history d)) then
          (Ok tt,
           mkDB (saved user_id
                   (ChatHistory.mk (uuid4 env 0) user_id message emb
                                   (time_time env))
                   (chat_history d))
                (pdf_embeddings d))
        else (Raise IntegrityError, d)
    | None => (Raise EmbeddingError, d)
    end
  else (Raise OperationalError, d).
Proof.
  unfold save_user_message, call, try_except, save_user_message_body.
  unfold mbind at 1. unfold M_bind at 1. rewrite session_query_clean.
  destruct (db_up env) eqn:Hup; [|done].
  unfold saved, oldest_of, embedding_embed_query, session_commit.
  unfold mbind, M_bind, connect. cbv zeta.
  case_decide.
  - rewrite session_query_clean, Hup, for_each_session_delete.
    destruct (embed_query env message) as [emb|]; [|done].
    unfold mret, M_ret, session_add_chat, SessionLocal.
    cbn [txn new_chat new_pdf deleted_chat committed app].
    rewrite ?Hup, flush_save. cbn [ChatHistory.id].
    by destruct (decide (uuid4 env 0 ∉ _)).
  - destruct (embed_query env message) as [emb|]; [|done].
    unfold mret, M_ret, session_add_chat, SessionLocal.
    cbn [txn new_chat new_pdf deleted_chat committed app].
    rewrite ?Hup, flush_save. cbn [ChatHistory.id].
    by destruct (decide (uuid4 env 0 ∉ _)).
Qed.

(** [save_user_message] either commits the eviction and the new row
    together, or raises and leaves the database as it was. *)
Lemma save_user_message_cases env user_id message d :
  (∃ emb,
      db_up env = true ∧ embed_query env message = Some emb ∧
      (uuid4 env 0 ∉ (ChatHistory.id <$> chat_history d)) ∧
      save_user_message env user_id message d =
      (Ok tt,
       mkDB (saved user_id
               (ChatHistory.mk (uuid4 env 0) user_id message emb (time_time env))
               (chat_history d))
            (pdf_embeddings d)))
  ∨ (∃ e, save_user_message env user_id message d = (Raise e, d)).
Proof.
  rewrite save_user_message_eq.
  destruct (db_up env); [|right; by eexists].
  destruct (embed_query env message) as [emb|]; [|right; by eexists].
  case_decide; [left; by exists emb|right; by eexists].
Qed.

(** *** Eviction *)

Lemma oldest_of_take user_id (rows : list ChatRow) :
  oldest_of user_id rows =
  take (evict_count (length (chat_of user_id rows)))
       (order_by ChatHistory.timestamp (chat_of user_id rows)).
Proof. unfold oldest_of, evict_count. by case_decide. Qed.

Lemma filter_comm {A : Type} (P Q : A → Prop) `{∀ x, Decision (P x)}
    `{∀ x, Decision (Q x)} (l : list A) :
  filter P (filter Q l) = filter Q (filter P l).
Proof.
  rewrite !list_filter_filter. apply list_filter_iff. intros x. tauto.
Qed.

Lemma chat_of_saved v user_id (new : ChatRow) (rows : list ChatRow) :
  chat_of v (saved user_id new rows) =
  filter (λ r, ChatHistory.id r ∉ ChatHistory.id <$> oldest_of user_id rows)
         (chat_of v rows ++ chat_of v [new]).
Proof. unfold saved, chat_of. by rewrite filter_comm, filter_app. Qed.

Lemma oldest_of_sublist user_id (rows : list ChatRow) :
  oldest_of user_id rows ⊆ chat_of user_id rows.
Proof.
  rewrite oldest_of_take. intros x Hx.
  apply subseteq_take in Hx. by rewrite order_by_perm in Hx.
Qed.

(** After a save the user's own history holds at most the limit. *)
Lemma saved_count_le user_id (new : ChatRow) (rows : list ChatRow) :
  length (chat_of user_id (saved user_id new rows)) ≤ CHAT_HISTORY_LIMIT.
Proof.
  rewrite chat_of_saved, filter_app, length_app.
  set (gone := ChatHistory.id <$> oldest_of user_id rows).
  assert (length (filter (λ r, ChatHistory.id r ∉ gone) (chat_of user_id [new]))
          ≤ 1) as Hnew.
  { etrans; [apply length_filter|]. unfold chat_of. etrans; [apply length_filter|].
    done. }
  set (sorted := order_by ChatHistory.timestamp (chat_of user_id rows)).
  set (n := evict_count (length (chat_of user_id rows))).
  assert (filter (λ r, ChatHistory.id r ∉ gone) (chat_of user_id rows)
          ≡ₚ filter (λ r, ChatHistory.id r ∉ gone) (drop n sorted)) as Hold.
  { rewrite <- (order_by_perm _ ChatHistory.timestamp (chat_of user_id rows)).
    fold sorted. rewrite <- (take_drop n sorted) at 1.
    rewrite filter_app, filter_none; [done|].
    intros x Hx Hfree. apply Hfree. apply list_elem_of_fmap_2.
    by rewrite oldest_of_take. }
  rewrite Hold.
  assert (length (drop n sorted) + 1 ≤ CHAT_HISTORY_LIMIT) as Hdrop.
  { rewrite length_drop. unfold sorted. rewrite order_by_perm.
    unfold n, evict_count, CHAT_HISTORY_LIMIT. case_decide; lia. }
  pose proof (length_filter (λ r, ChatHistory.id r ∉ gone) (drop n sorted)).
  lia.
Qed.

(** A save never adds to another user's history. *)
Lemma saved_count_other v user_id (new : ChatRow) (rows : list ChatRow) :
  ChatHistory.user_id new ≠ v →
  length (chat_of v (saved user_id new rows)) ≤ length (chat_of v rows).
Proof.
  intros Hv. rewrite chat_of_saved, filter_app, length_app.
  assert (chat_of v [new] = []) as ->.
  { unfold chat_of. by rewrite filter_cons, decide_False. }
  rewrite filter_nil. simpl. rewrite Nat.add_0_r. apply length_filter.
Qed.

(** With a primary key on [id] and a fresh uuid the eviction removes exactly
    the rows it selected. *)
Section FreshKey.
Variables (user_id : string) (new : ChatRow) (rows : list ChatRow).
Hypothesis Hkey : NoDup (ChatHistory.id <$> rows).
Hypothesis Hfresh : ChatHistory.id new ∉ (ChatHistory.id <$> rows).

Lemma oldest_of_key (r : ChatRow) :
  r ∈ rows →
  ChatHistory.id r ∈ (ChatHistory.id <$> oldest_of user_id rows) ↔
  r ∈ oldest_of user_id rows.
Proof.
  intros Hr. split; [|apply list_elem_of_fmap_2].
  intros (o & Hid & Ho)%list_elem_of_fmap_1.
  assert (o ∈ rows) as Ho'.
  { apply oldest_of_sublist in Ho. by apply list_elem_of_filter in Ho as [_ ?]. }
  by rewrite (key_inj ChatHistory.id rows r o Hkey Hr Ho' Hid).
Qed.

Lemma new_not_evicted :
  ChatHistory.id new ∉ (ChatHistory.id <$> oldest_of user_id rows).
Proof.
  intros (o & Hid & Ho)%list_elem_of_fmap_1. apply Hfresh. rewrite Hid.
  apply list_elem_of_fmap_2. apply oldest_of_sublist in Ho.
  by apply list_elem_of_filter in Ho as [_ ?].
Qed.

Lemma saved_elem_of (r : ChatRow) :
  r ∈ rows → r ∈ saved user_id new rows ↔ r ∉ oldest_of user_id rows.
Proof.
  intros Hr. unfold saved. rewrite list_elem_of_filter, elem_of_app.
  rewrite <- (oldest_of_key r Hr). split; [by intros [? _]|]. intros ?.
  split; [done|by left].
Qed.

Lemma saved_NoDup : NoDup (ChatHistory.id <$> saved user_id new rows).
Proof.
  apply (NoDup_key_sublist ChatHistory.id _ (rows ++ [new])).
  - apply sublist_filter.
  - rewrite fmap_app. apply NoDup_app. split; [done|]. split.
    + intros k Hk Hk'. apply list_elem_of_singleton in Hk' as ->. by apply Hfresh.
    + apply NoDup_singleton.
Qed.

Lemma chat_of_saved_other v :
  ChatHistory.user_id new = user_id → v ≠ user_id →
  chat_of v (saved user_id new rows) = chat_of v rows.
Proof.
  intros Hnew Hv. rewrite chat_of_saved.
  assert (chat_of v [new] = []) as ->.
  { unfold chat_of. rewrite filter_cons, decide_False; [done|congruence]. }
  rewrite app_nil_r. apply filter_all. intros r Hr Hgone.
  apply list_elem_of_filter in Hr as [Hu Hr].
  apply (oldest_of_key r Hr), oldest_of_sublist in Hgone.
  apply list_elem_of_filter in Hgone as [Hu' _]. congruence.
Qed.

Lemma chat_of_saved_own :
  ChatHistory.user_id new = user_id →
  chat_of user_id (saved user_id new rows) ≡ₚ
  drop (evict_count (length (chat_of user_id rows)))
       (order_by ChatHistory.timestamp (chat_of user_id rows)) ++ [new].
Proof.
  intros Hnew. rewrite chat_of_saved, filter_app.
  assert (chat_of user_id [new] = [new]) as ->.
  { unfold chat_of. by rewrite filter_cons, decide_True. }
  rewrite (filter_all _ [new]).
  2:{ intros r ->%list_elem_of_singleton. apply new_not_evicted. }
  apply Permutation_app_tail.
  rewrite oldest_of_take.
  set (sorted := order_by ChatHistory.timestamp (chat_of user_id rows)).
  rewrite <- (order_by_perm _ ChatHistory.timestamp (chat_of user_id rows)) at 1.
  fold sorted. rewrite (filter_key_take ChatHistory.id); [done|].
  unfold sorted. rewrite order_by_perm.
  apply (NoDup_key_sublist ChatHistory.id _ rows); [apply sublist_filter|done].
Qed.

End FreshKey.

(** *** Saving a turn *)

Lemma save_user_message_ok_inv env user_id message d d' :
  save_user_message env user_id message d = (Ok tt, d') →
  ∃ emb,
    embed_query env message = Some emb ∧
    (uuid4 env 0 ∉ (ChatHistory.id <$> chat_history d)) ∧
    d' = mkDB (saved user_id
                 (ChatHistory.mk (uuid4 env 0) user_id message emb
                                 (time_time env))
                 (chat_history d))
              (pdf_embeddings d).
Proof.
  intros Hsave.
  destruct (save_user_message_cases env user_id message d)
    as [(emb & _ & Hemb & Hfresh & Heq)|[e Heq]]; rewrite Heq in Hsave.
  - exists emb. repeat split; [done..|congruence].
  - discriminate.
Qed.

(** C6 (amended): when [save_user_message] evicts, it keeps the user's
    history at the limit and evicts by timestamp: every turn of the user it
    evicts is at most as recent as every turn of the user it keeps.  Which
    of several turns with one timestamp goes is the database's choice. *)
Theorem eviction_oldest_by_timestamp env user_id message d d' :
  NoDup (ChatHistory.id <$> chat_history d) →
  save_user_message env user_id message d = (Ok tt, d') →
  length (chat_of user_id (chat_history d')) =
    min CHAT_HISTORY_LIMIT (length (chat_of user_id (chat_history d)) + 1) ∧
  ∀ e r : ChatRow,
    e ∈ chat_of user_id (chat_history d) →
    r ∈ chat_of user_id (chat_history d) →
    e ∉ chat_history d' → r ∈ chat_history d' →
    (ChatHistory.timestamp e ≤ ChatHistory.timestamp r)%Z.
Proof.
  intros Hkey (emb & Hemb & Hfresh & ->)%save_user_message_ok_inv.
  cbn [chat_history].
  set (new := ChatHistory.mk _ _ _ _ _).
  set (rows := chat_history d) in *.
  set (sorted := order_by ChatHistory.timestamp (chat_of user_id rows)).
  set (n := evict_count (length (chat_of user_id rows))).
  split.
  - rewrite (chat_of_saved_own user_id new rows Hkey Hfresh eq_refl).
    rewrite length_app, length_drop, order_by_perm. cbn [length].
    unfold evict_count, CHAT_HISTORY_LIMIT. case_decide; lia.
  - intros e r He Hr Hgone Hkept.
    apply list_elem_of_filter in He as [_ He'].
    pose proof Hr as Hr0. apply list_elem_of_filter in Hr as [_ Hr'].
    rewrite (saved_elem_of user_id new rows Hkey e He') in Hgone.
    rewrite (saved_elem_of user_id new rows Hkey r Hr') in Hkept.
    assert (e ∈ take n sorted) as Hetake.
    { destruct (decide (ChatHistory.id e ∈
                          (ChatHistory.id <$> oldest_of user_id rows)))
        as [Hin|Hout].
      - apply (oldest_of_key user_id rows Hkey e He') in Hin.
        by rewrite oldest_of_take in Hin.
      - exfalso. apply Hgone. intros Hin. apply Hout.
        by apply list_elem_of_fmap_2. }
    assert (r ∈ drop n sorted) as Hrdrop.
    { assert (r ∈ take n sorted ++ drop n sorted) as Hin.
      { rewrite take_drop. unfold sorted. by rewrite order_by_perm. }
      apply elem_of_app in Hin as [Hin|Hin]; [|done].
      exfalso. apply Hkept. by rewrite oldest_of_take. }
    pose proof (order_by_sorted _ ChatHistory.timestamp (chat_of user_id rows))
      as Hsorted.
    fold sorted in Hsorted. rewrite <- (take_drop n sorted) in Hsorted.
    by apply (StronglySorted_app_1_elem_of _ _ _ e r Hsorted).
Qed.

(** C7: if the embedding call of [save_user_message] fails, the call raises
    and the database is what it was before the call; the eviction it had
    prepared is not committed. *)
Theorem save_aborts_when_embedding_fails env user_id message d :
  embed_query env message = None →
  ∃ e, save_user_message env user_id message d = (Raise e, d).
Proof.
  intros Hemb. rewrite save_user_message_eq, Hemb.
  destruct (db_up env); by eexists.
Qed.

(** *** Runs of [save_user_message] *)

Lemma run_from_snoc st calls c :
  run_from st (calls ++ [c]) = step (run_from st calls) c.
Proof. unfold run_from. by rewrite fold_left_app. Qed.

Lemma step_cases st c :
  step st c = st ∨
  ∃ emb,
    let new := ChatHistory.mk (uuid4 (call_env c) 0) (call_user_id c)
                 (call_message c) emb (time_time (call_env c)) in
    (uuid4 (call_env c) 0 ∉ (ChatHistory.id <$> chat_history st.1)) ∧
    step st c =
    (mkDB (saved (call_user_id c) new (chat_history st.1))
          (pdf_embeddings st.1),
     st.2 ++ [new]).
Proof.
  unfold step, turn_of.
  destruct (save_user_message_cases (call_env c) (call_user_id c)
              (call_message c) st.1)
    as [(emb & _ & Hemb & Hfresh & ->)|[e ->]].
  - right. exists emb. rewrite Hemb. by split.
  - left. by destruct st.
Qed.

Lemma run_count_le calls (u : string) :
  length (chat_of u (chat_history (run calls).1)) ≤ CHAT_HISTORY_LIMIT.
Proof.
  unfold run. induction calls as [|c calls IH] using rev_ind.
  - cbn. unfold CHAT_HISTORY_LIMIT. lia.
  - rewrite run_from_snoc.
    destruct (step_cases (run_from (mkDB [] [], []) calls) c)
      as [->|(emb & Hfresh & ->)]; [done|].
    cbn [fst chat_history].
    destruct (decide (call_user_id c = u)) as [<-|Hne].
    + apply saved_count_le.
    + etrans; [by apply saved_count_other|done].
Qed.

Lemma run_inv_step calls c st :
  (∀ t, t ∈ clock calls → (t ≤ time_time (call_env c))%Z) →
  run_inv calls st → run_inv (calls ++ [c]) (step st c).
Proof.
  intros Hclock (Hkey & Hlog & Hrecent).
  assert (∀ r, r ∈ st.2 → ChatHistory.timestamp r ∈ clock (calls ++ [c]))
    as Hlog'.
  { intros r Hr. unfold clock. rewrite fmap_app, elem_of_app. left.
    by apply Hlog. }
  destruct (step_cases st c) as [->|(emb & Hfresh & ->)]; [done|].
  set (u := call_user_id c).
  set (new := ChatHistory.mk _ _ _ _ _) in *.
  set (rows := chat_history st.1) in *.
  cbn zeta. split; [|split]; cbn [fst snd chat_history].
  - by apply saved_NoDup.
  - intros r [Hr| ->%list_elem_of_singleton]%elem_of_app; [by apply Hlog'|].
    unfold clock. rewrite fmap_app, elem_of_app. right. cbn. by left.
  - intros v. destruct (decide (v = u)) as [->|Hv].
    2:{ rewrite (chat_of_saved_other u new rows Hkey v eq_refl Hv).
        unfold chat_of at 1. rewrite filter_app, filter_cons, decide_False by done.
        rewrite filter_nil, app_nil_r. apply Hrecent. }
    destruct (Hrecent u) as (Hlen & evicted & Hperm & Hord). fold rows in Hlen, Hperm, Hord.
    set (sorted := order_by ChatHistory.timestamp (chat_of u rows)).
    set (n := evict_count (length (chat_of u rows))).
    assert (chat_of u (st.2 ++ [new]) = chat_of u st.2 ++ [new]) as ->.
    { unfold chat_of. by rewrite filter_app, filter_cons, decide_True. }
    pose proof (chat_of_saved_own u new rows Hkey Hfresh eq_refl) as Hown.
    fold sorted n in Hown.
    assert (∀ e, e ∈ chat_of u st.2 →
              (ChatHistory.timestamp e ≤ ChatHistory.timestamp new)%Z) as Hnew.
    { intros e He. apply Hclock, Hlog.
      by apply list_elem_of_filter in He as [_ ?]. }
    split.
    + rewrite Hown, !length_app, length_drop. unfold sorted.
      rewrite order_by_perm. cbn [length]. unfold n, evict_count.
      revert Hlen. unfold CHAT_HISTORY_LIMIT. case_decide; lia.
    + exists (evicted ++ take n sorted). split.
      * rewrite Hown, Hperm.
        rewrite <- (order_by_perm _ ChatHistory.timestamp (chat_of u rows)).
        fold sorted. rewrite <- (take_drop n sorted) at 1.
        rewrite <- !app_assoc. done.
      * intros e r He Hr. rewrite Hown in Hr.
        assert (∀ x, x ∈ sorted → x ∈ chat_of u rows) as Hsorted_in.
        { intros x Hx. unfold sorted in Hx. by rewrite order_by_perm in Hx. }
        apply elem_of_app in Hr as [Hr| ->%list_elem_of_singleton].
        -- apply elem_of_app in He as [He|He].
           ++ apply Hord; [done|]. apply Hsorted_in.
              by apply (subseteq_drop n sorted).
           ++ pose proof (order_by_sorted _ ChatHistory.timestamp
                            (chat_of u rows)) as Hsorted.
              fold sorted in Hsorted.
              rewrite <- (take_drop n sorted) in Hsorted.
              by apply (StronglySorted_app_1_elem_of _ _ _ e r Hsorted).
        -- apply Hnew. rewrite Hperm, elem_of_app.
           apply elem_of_app in He as [He|He]; [by left|right].
           apply Hsorted_in. by apply (subseteq_take n sorted).
Qed.

Lemma run_inv_run calls :
  Sorted Z.le (clock calls) → run_inv calls (run calls).
Proof.
  unfold run. induction calls as [|c calls IH] using rev_ind; intros Hclock.
  - split; [constructor|]. split; [by intros r ?%elem_of_nil|].
    intros u. split; [done|]. exists []. split; [done|].
    by intros e r ?%elem_of_nil.
  - rewrite run_from_snoc.
    apply Sorted_StronglySorted in Hclock; [|intros x y z; lia].
    unfold clock in Hclock. rewrite fmap_app in Hclock.
    apply run_inv_step.
    + intros t Ht.
      apply (StronglySorted_app_1_elem_of _ _ _ t (time_time (call_env c)) Hclock);
        [done|]. cbn. by left.
    + apply IH. apply StronglySorted_Sorted.
      by apply StronglySorted_app_1_l in Hclock.
Qed.

(** *** Retrieval *)

Lemma retrieve_user_memory_eq env user_id query (k : nat) d :
  retrieve_user_memory cosine_distance env user_id query k d =
  (Ok match embed_query env query with
      | Some query_emb =>
          if db_up env then
            memory_document <$>
              filter (λ r, ChatHistory.message r ≠ "")
                     (memory_results cosine_distance query_emb user_id k d)
          else []
      | None => []
      end, d).
Proof.
  unfold retrieve_user_memory, call, try_except, embedding_embed_query.
  unfold mbind, M_bind.
  destruct (embed_query env query) as [query_emb|]; [|done].
  unfold mret at 1. unfold M_ret at 1. rewrite session_query_clean.
  by destruct (db_up env).
Qed.

Lemma retrieve_pdf_for_user_eq env user_id query (k : nat) d :
  retrieve_pdf_for_user cosine_distance env user_id query k d =
  (Ok match embed_query env query with
      | Some query_emb =>
          if db_up env then
            pdf_document <$> pdf_results cosine_distance query_emb user_id k d
          else []
      | None => []
      end, d).
Proof.
  unfold retrieve_pdf_for_user, call, try_except, embedding_embed_query.
  unfold mbind, M_bind.
  destruct (embed_query env query) as [query_emb|]; [|done].
  unfold mret at 1. unfold M_ret at 1. rewrite session_query_clean.
  by destruct (db_up env).
Qed.

Lemma pdf_results_visible query_emb user_id (k : nat) d (r : PdfRow) :
  r ∈ pdf_results cosine_distance query_emb user_id k d →
  r ∈ pdf_embeddings d ∧ pdf_visible user_id r.
Proof.
  unfold pdf_results. intros Hr%subseteq_take.
  rewrite order_by_perm in Hr. apply list_elem_of_filter in Hr. tauto.
Qed.

(** C1: [retrieve_pdf_for_user] returns only documents built from stored
    fragments that the user owns or that are public ([is_public == 1]), and
    each returned document says so in its metadata. *)
Theorem retrieve_pdf_only_visible env user_id query (k : nat) d :
  ∃ rows : list PdfRow,
    retrieve_pdf_for_user cosine_distance env user_id query k d =
      (Ok (pdf_document <$> rows), d) ∧
    Forall (λ r, r ∈ pdf_embeddings d ∧
                 (PDFEmbedding.user_id r = user_id ∨
                  PDFEmbedding.is_public r = 1%Z)) rows ∧
    Forall (λ doc, dict_get (metadata doc) "user_id" (MStr "") = MStr user_id ∨
                   dict_get (metadata doc) "is_public" (MInt 0) = MInt 1)
           (pdf_document <$> rows).
Proof.
  rewrite retrieve_pdf_for_user_eq.
  destruct (embed_query env query) as [query_emb|];
    [destruct (db_up env)|]; try (exists []; by repeat split).
  exists (pdf_results cosine_distance query_emb user_id k d).
  split; [done|]. split.
  - apply Forall_forall. intros r Hr. by apply pdf_results_visible in Hr.
  - apply Forall_fmap, Forall_forall. intros r Hr.
    apply pdf_results_visible in Hr as [_ [<-|Hpub]]; cbn; [by left|right].
    by rewrite Hpub.
Qed.

Lemma memory_results_sorted query_emb user_id (k : nat) d :
  StronglySorted
    (λ a b : ChatRow,
       (cosine_distance (ChatHistory.embedding a) query_emb ≤
        cosine_distance (ChatHistory.embedding b) query_emb)%Z)
    (memory_results cosine_distance query_emb user_id k d).
Proof.
  unfold memory_results.
  eapply StronglySorted_sublist; [apply sublist_take|].
  apply (order_by_sorted _
           (λ r : ChatRow, cosine_distance (ChatHistory.embedding r) query_emb)).
Qed.

Lemma pdf_results_sorted query_emb user_id (k : nat) d :
  StronglySorted
    (λ a b : PdfRow,
       (cosine_distance (PDFEmbedding.embedding a) query_emb ≤
        cosine_distance (PDFEmbedding.embedding b) query_emb)%Z)
    (pdf_results cosine_distance query_emb user_id k d).
Proof.
  unfold pdf_results.
  eapply StronglySorted_sublist; [apply sublist_take|].
  apply (order_by_sorted _
           (λ r : PdfRow, cosine_distance (PDFEmbedding.embedding r) query_emb)).
Qed.

(** C5 (amended): both similarity queries return their results in ascending
    cosine distance to the query vector, at most [k] of them, taken from the
    rows the filter selects.  The order of results at one distance is the
    database's choice. *)
Theorem retrieval_ascending_distance env user_id query (k : nat) d query_emb :
  embed_query env query = Some query_emb →
  (∃ rows : list ChatRow,
     retrieve_user_memory cosine_distance env user_id query k d =
       (Ok (memory_document <$> rows), d) ∧
     length rows ≤ k ∧
     rows ⊆ chat_of user_id (chat_history d) ∧
     StronglySorted
       (λ a b, (cosine_distance (ChatHistory.embedding a) query_emb ≤
                cosine_distance (ChatHistory.embedding b) query_emb)%Z) rows) ∧
  (∃ rows : list PdfRow,
     retrieve_pdf_for_user cosine_distance env user_id query k d =
       (Ok (pdf_document <$> rows), d) ∧
     length rows ≤ k ∧
     rows ⊆ filter (pdf_visible user_id) (pdf_embeddings d) ∧
     StronglySorted
       (λ a b, (cosine_distance (PDFEmbedding.embedding a) query_emb ≤
                cosine_distance (PDFEmbedding.embedding b) query_emb)%Z) rows).
Proof.
  intros Hemb. rewrite retrieve_user_memory_eq, retrieve_pdf_for_user_eq, Hemb.
  destruct (db_up env).
  2:{ split; exists [];
        (split; [done|split; [cbn; lia|split;
           [by intros ? ?%elem_of_nil|apply SSorted_nil]]]). }
  split.
  - exists (filter (λ r, ChatHistory.message r ≠ "")
                   (memory_results cosine_distance query_emb user_id k d)).
    split; [done|]. split; [|split].
    + etrans; [apply length_filter|]. unfold memory_results.
      rewrite length_take. lia.
    + intros r [_ Hr%subseteq_take]%list_elem_of_filter.
      by rewrite order_by_perm in Hr.
    + eapply StronglySorted_sublist; [apply sublist_filter|].
      apply memory_results_sorted.
  - exists (pdf_results cosine_distance query_emb user_id k d).
    split; [done|]. split; [|split].
    + unfold pdf_results. rewrite length_take. lia.
    + intros r Hr%subseteq_take. by rewrite order_by_perm in Hr.
    + apply pdf_results_sorted.
Qed.

(** C4 (amended): when the storage layer fails during a read,
    [retrieve_user_memory] and [retrieve_pdf_for_user] catch the error and
    return the empty list; no error reaches the caller. *)
Theorem retrieval_storage_failure_returns_empty env user_id query (k : nat) d :
  db_up env = false →
  retrieve_user_memory cosine_distance env user_id query k d = (Ok [], d) ∧
  retrieve_pdf_for_user cosine_distance env user_id query k d = (Ok [], d).
Proof.
  intros Hdown. rewrite retrieve_user_memory_eq, retrieve_pdf_for_user_eq, Hdown.
  by destruct (embed_query env query).
Qed.

(** C9: [retrieve_user_memory] never returns a turn with empty text: such a
    turn is stored by [save_user_message] and counted like any other, and
    when it is among the [k] nearest the result is shorter by it. *)
Theorem recall_skips_empty_messages env user_id query (k : nat) d :
  (∃ docs,
     retrieve_user_memory cosine_distance env user_id query k d = (Ok docs, d) ∧
     Forall (λ doc, page_content doc ≠ "") docs ∧
     ∀ query_emb, embed_query env query = Some query_emb → db_up env = true →
       let selected := memory_results cosine_distance query_emb user_id k d in
       length docs + length (filter (λ r, ChatHistory.message r = "") selected)
         = length selected) ∧
  (∀ env' d', save_user_message env' user_id "" d = (Ok tt, d') →
     ∃ r, r ∈ chat_of user_id (chat_history d') ∧ ChatHistory.message r = "" ∧
          0 < length (chat_of user_id (chat_history d'))).
Proof.
  split.
  - rewrite retrieve_user_memory_eq.
    destruct (embed_query env query) as [query_emb|];
      [destruct (db_up env)|]; try (exists []; by repeat split).
    eexists. split; [done|]. split.
    + apply Forall_fmap, Forall_forall.
      by intros r [Hr _]%list_elem_of_filter.
    + intros ? [= <-] _. cbn zeta. rewrite length_fmap.
      set (selected := memory_results _ _ _ _ _).
      rewrite <- (filter_app_complement (λ r, ChatHistory.message r = "")
                    selected) at 3.
      rewrite length_app. lia.
  - intros env' d' (emb & Hemb & Hfresh & ->)%save_user_message_ok_inv.
    cbn [chat_history].
    set (new := ChatHistory.mk _ _ _ _ _).
    assert (new ∈ chat_of user_id (saved user_id new (chat_history d))) as Hin.
    { apply list_elem_of_filter. split; [done|].
      apply list_elem_of_filter. split.
      - by apply new_not_evicted.
      - apply elem_of_app. right. by left. }
    exists new. split; [done|]. split; [done|].
    destruct (chat_of user_id _); [by apply elem_of_nil in Hin|cbn; lia].
Qed.

(** *** Clearing *)

Lemma clear_history_by_user_eq env user_id d :
  clear_history_by_user env user_id d =
  if db_up env then
    (Ok tt,
     mkDB (filter (λ r, ChatHistory.user_id r ≠ user_id) (chat_history d))
          (pdf_embeddings d))
  else (Raise OperationalError, d).
Proof.
  unfold clear_history_by_user, call, session_execute, session_commit.
  unfold mbind, M_bind, connect. cbn [SessionLocal].
  destruct (db_up env) eqn:Hup; [|done].
  rewrite flush_clean.
  unfold write, SessionLocal. cbn [txn new_chat new_pdf deleted_chat committed].
  by rewrite ?Hup, flush_nothing.
Qed.

(** C10: [clear_history_by_user] deletes exactly the turns of that user:
    the chat table keeps, in order, the rows of every other user, and the
    PDF fragments are untouched. *)
Theorem clear_history_by_user_frame env user_id d :
  let d' := (clear_history_by_user env user_id d).2 in
  (db_up env = true →
     (clear_history_by_user env user_id d).1 = Ok tt ∧
     chat_history d' =
       filter (λ r, ChatHistory.user_id r ≠ user_id) (chat_history d) ∧
     chat_of user_id (chat_history d') = []) ∧
  (∀ v, v ≠ user_id →
     chat_of v (chat_history d') = chat_of v (chat_history d)) ∧
  pdf_embeddings d' = pdf_embeddings d.
Proof.
  cbn zeta. rewrite clear_history_by_user_eq.
  destruct (db_up env); cbn [fst snd chat_history pdf_embeddings].
  - split; [|split; [|done]].
    + intros _. split; [done|]. split; [done|].
      unfold chat_of. rewrite list_filter_filter. apply filter_none.
      intros r _ [? ?]. done.
    + intros v Hv. unfold chat_of. rewrite list_filter_filter.
      apply filter_ext_elem. intros r _. split; [by intros [? _]|].
      intros Hr. split; [done|congruence].
  - split; [done|]. by split.
Qed.

(** *** Ingestion *)

Lemma insert_chunk_cases env (i : nat) (chunk : Document) (emb : Vec) s :
  (∃ r, stored_as py_str chunk emb r ∧
        insert_chunk py_str env (i, (chunk, emb)) s =
        (Ok tt, mkSession (committed s) (txn s) (new_chat s)
                          (new_pdf s ++ [r]) (deleted_chat s)))
  ∨ insert_chunk py_str env (i, (chunk, emb)) s = (Raise DataError, s).
Proof.
  unfold insert_chunk, column_string, column_integer, bound, mbind, M_bind.
  cbn [varchar_of].
  destruct (varchar_of (dict_get (metadata chunk) "user_id" (MStr "")))
    as [u|] eqn:Hu; [|by right].
  destruct (varchar_of (dict_get (metadata chunk) "filename" (MStr "")))
    as [f|] eqn:Hf; [|by right].
  destruct (varchar_of (dict_get (metadata chunk) "source" (MStr "")))
    as [src|] eqn:Hs; [|by right].
  destruct (int4_of (dict_get (metadata chunk) "is_public" (MInt 0)))
    as [p|] eqn:Hp; [|by right].
  destruct (has_nul (page_content chunk)) eqn:Hnul; [by right|].
  left. eexists. split; [|done]. by repeat split.
Qed.

Lemma for_each_insert_chunk env (items : list (nat * (Document * Vec))) s :
  (∃ rows,
     Forall2 (λ item r, stored_as py_str item.2.1 item.2.2 r) items rows ∧
     for_each items (insert_chunk py_str env) s =
     (Ok tt, mkSession (committed s) (txn s) (new_chat s)
                       (new_pdf s ++ rows) (deleted_chat s)))
  ∨ ∃ s', for_each items (insert_chunk py_str env) s = (Raise DataError, s')
          ∧ committed s' = committed s.
Proof.
  revert s. induction items as [|[i [chunk emb]] items IH]; intros s.
  - left. exists []. split; [constructor|]. cbn. rewrite app_nil_r.
    by destruct s.
  - cbn [for_each]. unfold mbind, M_bind.
    destruct (insert_chunk_cases env i chunk emb s) as [(r & Hr & ->)| ->].
    2:{ right. by exists s. }
    destruct (IH (mkSession (committed s) (txn s) (new_chat s)
                            (new_pdf s ++ [r]) (deleted_chat s)))
      as [(rows & Hrows & ->)|(s' & -> & Hs')].
    + left. exists (r :: rows). split; [by constructor|].
      cbn [committed txn new_chat new_pdf deleted_chat].
      by rewrite <- app_assoc.
    + right. by exists s'.
Qed.

Lemma flush_pdf d (rows : list PdfRow) :
  flush (mkSession d d [] rows []) =
  if decide (keys_free (PDFEmbedding.id <$> pdf_embeddings d)
                       (PDFEmbedding.id <$> rows))
  then (Ok tt,
        mkSession d (mkDB (chat_history d) (pdf_embeddings d ++ rows))
                  [] [] [])
  else (Raise IntegrityError, mkSession d d [] rows []).
Proof.
  unfold flush. cbn [txn new_chat new_pdf deleted_chat committed].
  rewrite !fmap_nil, app_nil_r, filter_notin_nil.
  destruct (decide (keys_free (PDFEmbedding.id <$> pdf_embeddings d)
                              (PDFEmbedding.id <$> rows))) as [Hp|Hp];
    case_decide as Hk; try done.
  - exfalso. apply Hk. split; [|done]. split; constructor.
  - exfalso. by destruct Hk as [_ Hk].
Qed.

Lemma insert_new_chunks_inv env (chunks : list Document) d res :
  insert_new_chunks py_str env chunks d = res →
  res = (Ok false, d) ∨
  ∃ embs rows,
    embed_documents env (page_content <$> chunks) = Some embs ∧
    Forall2 (λ pair r, stored_as py_str pair.1 pair.2 r) (zip chunks embs) rows ∧
    res = (Ok true, mkDB (chat_history d) (pdf_embeddings d ++ rows)).
Proof.
  unfold insert_new_chunks, call, try_except, embedding_embed_documents.
  cbv zeta. unfold mbind at 1. unfold M_bind at 1.
  destruct (embed_documents env (page_content <$> chunks)) as [embs|];
    [|intros <-; by left].
  unfold mret at 1. unfold M_ret at 1.
  set (pairs := zip chunks embs).
  unfold mbind at 1. unfold M_bind at 1.
  destruct (for_each_insert_chunk env (zip (seq 0 (length pairs)) pairs)
              (SessionLocal d)) as [(rows & Hrows & ->)|(s' & -> & Hs')].
  2:{ intros <-. left. unfold mbind, M_bind, session_rollback, mret, M_ret.
      cbn. by rewrite Hs'. }
  unfold SessionLocal. cbn [txn new_chat new_pdf deleted_chat committed app].
  unfold session_commit, mbind, M_bind, connect.
  destruct (db_up env); [|intros <-; left; reflexivity].
  rewrite flush_pdf.
  case_decide; [|intros <-; left; reflexivity].
  intros <-. right. exists embs, rows. split; [done|]. split; [|reflexivity].
  assert ((zip (seq 0 (length pairs)) pairs).*2 = pairs) as Hsnd.
  { apply snd_zip. rewrite length_seq. lia. }
  fold pairs. rewrite <- Hsnd. by apply Forall2_fmap_l.
Qed.

(** [insert_new_chunks] either changes nothing and returns [False], or
    appends one row per embedded chunk and returns [True]. *)
Lemma insert_new_chunks_cases env (chunks : list Document) d :
  insert_new_chunks py_str env chunks d = (Ok false, d) ∨
  ∃ embs rows,
    embed_documents env (page_content <$> chunks) = Some embs ∧
    Forall2 (λ pair r, stored_as py_str pair.1 pair.2 r) (zip chunks embs) rows ∧
    insert_new_chunks py_str env chunks d =
    (Ok true, mkDB (chat_history d) (pdf_embeddings d ++ rows)).
Proof. by apply insert_new_chunks_inv. Qed.

(** C3: if the batch embedding call of [insert_new_chunks] fails, the call
    returns [False] and the database is what it was before the call: no
    fragment of the batch is stored. *)
Theorem insert_aborts_when_embedding_fails env (chunks : list Document) d :
  embed_documents env (page_content <$> chunks) = None →
  insert_new_chunks py_str env chunks d = (Ok false, d).
Proof.
  intros Hemb.
  destruct (insert_new_chunks_cases env chunks d)
    as [?|(embs & rows & Hsome & _)]; [done|congruence].
Qed.


(** *** The other functions of the module *)

Lemma call_execute_commit env (stmt : @DB Vec → @DB Vec) d :
  call (session_execute env stmt ;; session_commit env) d =
  if db_up env then (Ok tt, stmt d) else (Raise OperationalError, d).
Proof.
  unfold call, session_execute, session_commit.
  unfold mbind, M_bind, connect. cbn [SessionLocal].
  destruct (db_up env) eqn:Hup; [|done].
  rewrite flush_clean.
  unfold write, SessionLocal. cbn [txn new_chat new_pdf deleted_chat committed].
  by rewrite ?Hup, flush_nothing.
Qed.

Lemma call_query {A B : Type} env (q : @DB Vec → A) (f : A → B) d :
  call (results ← session_query env q; mret (f results)) d =
  ((if db_up env then Ok (f (q d)) else Raise OperationalError), d).
Proof.
  unfold call, mbind, M_bind. rewrite session_query_clean.
  by destruct (db_up env).
Qed.

Lemma get_all_history_eq env user_id d :
  get_all_history env user_id d =
  ((if db_up env then
      Ok (ChatHistory.message <$>
            order_by ChatHistory.timestamp (chat_of user_id (chat_history d)))
    else Raise OperationalError), d).
Proof.
  unfold get_all_history.
  apply (call_query env
           (λ d, order_by ChatHistory.timestamp
                   (chat_of user_id (chat_history d)))
           (fmap ChatHistory.message)).
Qed.


(** In a list sorted by key, an element whose key is above all the others
    comes last. *)
Lemma sorted_last_is_max {A : Type} (key : A → Z) (l kept : list A) (x : A) :
  StronglySorted (λ a b, (key a ≤ key b)%Z) l →
  l ≡ₚ kept ++ [x] →
  (∀ y, y ∈ kept → (key y < key x)%Z) →
  last l = Some x.
Proof.
  intros Hsorted Hperm Hmax.
  assert (x ∈ l) as Hx.
  { rewrite Hperm. apply elem_of_app. right. by left. }
  apply list_elem_of_split in Hx as (l1 & l2 & ->).
  assert (l1 ++ l2 ≡ₚ kept) as Hrest.
  { apply (Permutation_cons_inv (a := x)).
    rewrite Permutation_middle, Hperm.
    by rewrite <- Permutation_cons_append. }
  destruct l2 as [|y l2]; [by rewrite last_snoc|].
  exfalso.
  assert (key y < key x)%Z as Hlt.
  { apply Hmax. rewrite <- Hrest. apply elem_of_app. right. by left. }
  assert (key x ≤ key y)%Z as Hle.
  { apply StronglySorted_app_1_r, StronglySorted_inv in Hsorted as [_ Hall].
    rewrite Forall_forall in Hall. apply Hall. by left. }
  lia.
Qed.

(** A message that [save_user_message] stored shows in the user's history;
    it shows last when its timestamp is later than those of the turns the
    user already had. *)
Theorem history_shows_saved_message env env' user_id message d d' :
  save_user_message env user_id message d = (Ok tt, d') →
  db_up env' = true →
  ∃ msgs,
    get_all_history env' user_id d' = (Ok msgs, d') ∧
    message ∈ msgs ∧
    ((∀ r, r ∈ chat_of user_id (chat_history d) →
           (ChatHistory.timestamp r < time_time env)%Z) →
     last msgs = Some message).
Proof.
  intros (emb & Hemb & Hfresh & ->)%save_user_message_ok_inv Hup.
  rewrite get_all_history_eq, Hup. cbn [chat_history].
  set (new := ChatHistory.mk _ _ _ _ _).
  set (rows := chat_history d).
  set (gone := ChatHistory.id <$> oldest_of user_id rows).
  set (kept := filter (λ r, ChatHistory.id r ∉ gone) (chat_of user_id rows)).
  assert (chat_of user_id (saved user_id new rows) = kept ++ [new]) as Hsaved.
  { rewrite chat_of_saved, filter_app. fold gone kept. f_equal.
    assert (chat_of user_id [new] = [new]) as ->.
    { unfold chat_of. by rewrite filter_cons, decide_True. }
    apply filter_all. intros r ->%list_elem_of_singleton.
    by apply new_not_evicted. }
  set (hist := order_by ChatHistory.timestamp
                 (chat_of user_id (saved user_id new rows))).
  assert (hist ≡ₚ kept ++ [new]) as Hperm.
  { unfold hist. by rewrite order_by_perm, Hsaved. }
  eexists. split; [done|]. split.
  - apply (list_elem_of_fmap_2' ChatHistory.message _ new); [|done].
    rewrite Hperm. apply elem_of_app. right. by left.
  - intros Hlater. rewrite fmap_last.
    rewrite (sorted_last_is_max ChatHistory.timestamp hist kept new); [done|..].
    + apply (order_by_sorted _ ChatHistory.timestamp).
    + done.
    + intros y [_ Hy]%list_elem_of_filter. by apply Hlater.
Qed.

(** With the primary key in place, [save_user_message] for one user never
    touches the turns of another user nor any PDF fragment, whether it
    commits or raises. *)
Theorem save_leaves_other_users_alone env user_id message d v :
  NoDup (ChatHistory.id <$> chat_history d) →
  v ≠ user_id →
  let d' := (save_user_message env user_id message d).2 in
  chat_of v (chat_history d') = chat_of v (chat_history d) ∧
  pdf_embeddings d' = pdf_embeddings d.
Proof.
  intros Hkey Hv. cbn zeta.
  destruct (save_user_message_cases env user_id message d)
    as [(emb & _ & _ & Hfresh & ->)|[e ->]]; [|done].
  cbn [snd chat_history pdf_embeddings]. split; [|done].
  by apply chat_of_saved_other.
Qed.

(** [save_user_message] commits only when PostgreSQL is reachable, the
    embedding call returned and the drawn uuid was not taken; what it
    commits holds the new turn, made of the caller's user id and message,
    the vector returned and the clock reading, and leaves the PDF table
    alone.  Whenever it raises, the database is what it was. *)
Theorem save_commits_only_if env user_id message d :
  (∀ d', save_user_message env user_id message d = (Ok tt, d') →
     db_up env = true ∧
     (uuid4 env 0 ∉ (ChatHistory.id <$> chat_history d)) ∧
     pdf_embeddings d' = pdf_embeddings d ∧
     ∃ emb, embed_query env message = Some emb ∧
       ChatHistory.mk (uuid4 env 0) user_id message emb (time_time env)
         ∈ chat_history d') ∧
  (∀ e d', save_user_message env user_id message d = (Raise e, d') → d' = d).
Proof.
  destruct (save_user_message_cases env user_id message d)
    as [(emb & Hup & Hemb & Hfresh & ->)|[e ->]].
  - split; [|discriminate]. intros d' [= <-].
    split; [done|]. split; [done|]. split; [done|].
    exists emb. split; [done|]. cbn [chat_history]. unfold saved.
    apply list_elem_of_filter. split.
    + intros (o & Hid & Ho)%list_elem_of_fmap_1. apply Hfresh.
      cbn [ChatHistory.id] in Hid. rewrite Hid. apply list_elem_of_fmap_2.
      apply oldest_of_sublist in Ho.
      by apply list_elem_of_filter in Ho as [_ ?].
    + apply elem_of_app. right. by left.
  - split; [discriminate|]. by intros e' d' [= _ <-].
Qed.

(** *** More on ingestion *)

(** [insert_new_chunks] never raises: it returns a flag.  It only appends
    to [pdf_embeddings], never touches the chat table, and when the flag is
    [False] the database is what it was before the call. *)
Theorem insert_returns_flag env (chunks : list Document) d :
  ∃ (b : bool) (rows : list PdfRow),
    (insert_new_chunks py_str env chunks d).1 = Ok b ∧
    chat_history (insert_new_chunks py_str env chunks d).2 = chat_history d ∧
    pdf_embeddings (insert_new_chunks py_str env chunks d).2 =
      pdf_embeddings d ++ rows ∧
    (b = false → insert_new_chunks py_str env chunks d = (Ok false, d)).
Proof.
  destruct (insert_new_chunks_cases env chunks d)
    as [Heq|(embs & rows & _ & _ & Heq)]; rewrite Heq.
  - exists false, []. cbn. by rewrite app_nil_r.
  - exists true, rows. by cbn.
Qed.

(** [zip] stops at the shorter list: when the embedding model returns
    fewer vectors than there are chunks, a successful [insert_new_chunks]
    stores only as many fragments as there are vectors. *)
Theorem insert_row_count env (chunks : list Document) d d' :
  insert_new_chunks py_str env chunks d = (Ok true, d') →
  ∃ embs,
    embed_documents env (page_content <$> chunks) = Some embs ∧
    length (pdf_embeddings d') =
      length (pdf_embeddings d) + min (length chunks) (length embs).
Proof.
  intros Hins.
  destruct (insert_new_chunks_cases env chunks d)
    as [Heq|(embs & rows & Hemb & Hrows & Heq)]; rewrite Heq in Hins;
    [discriminate|].
  injection Hins as <-. exists embs. split; [done|].
  cbn [pdf_embeddings]. rewrite length_app.
  by rewrite <- (Forall2_length _ _ _ Hrows), length_zip.
Qed.

Lemma insert_chunk_fit env (item : nat * (Document * Vec)) s :
  columns_fit item.2.1 →
  insert_chunk py_str env item s =
  (Ok tt, mkSession (committed s) (txn s) (new_chat s)
                    (new_pdf s ++ [chunk_row py_str env item])
                    (deleted_chat s)).
Proof.
  destruct item as [i [chunk emb]].
  intros ([u Hu] & [f Hf] & [src Hs] & [p Hp] & Hnul). cbn in Hu, Hf, Hs, Hp, Hnul.
  unfold insert_chunk, chunk_row, column_string, column_integer, bound.
  unfold mbind, M_bind. cbn [fst snd varchar_of].
  by rewrite Hu, Hf, Hs, Hp, Hnul.
Qed.

Lemma for_each_insert_chunk_fit env (items : list (nat * (Document * Vec))) s :
  Forall (λ item, columns_fit item.2.1) items →
  for_each items (insert_chunk py_str env) s =
  (Ok tt, mkSession (committed s) (txn s) (new_chat s)
                    (new_pdf s ++ (chunk_row py_str env <$> items))
                    (deleted_chat s)).
Proof.
  intros Hfit. revert s.
  induction Hfit as [|item items Hitem _ IH]; intros s.
  - cbn. rewrite app_nil_r. by destruct s.
  - cbn [for_each]. unfold mbind, M_bind.
    rewrite (insert_chunk_fit env item s Hitem), IH.
    cbn [committed txn new_chat new_pdf deleted_chat].
    by rewrite fmap_cons, <- app_assoc.
Qed.

(** When PostgreSQL is reachable, the embedding model answers, the
    database accepts the values of every chunk (no NUL in its text nor in
    the strings bound to [user_id], [filename] and [source], [is_public]
    within the range of the integer column) and the drawn uuids are free,
    [insert_new_chunks] returns [True] and has appended, in order, the row
    of every embedded chunk. *)
Theorem insert_succeeds env (chunks : list Document) (embs : list Vec) d :
  db_up env = true →
  embed_documents env (page_content <$> chunks) = Some embs →
  Forall columns_fit chunks →
  keys_free (PDFEmbedding.id <$> pdf_embeddings d)
            (uuid4 env <$> seq 0 (length (zip chunks embs))) →
  insert_new_chunks py_str env chunks d =
  (Ok true,
   mkDB (chat_history d)
        (pdf_embeddings d ++
         (chunk_row py_str env <$>
            zip (seq 0 (length (zip chunks embs))) (zip chunks embs)))).
Proof.
  intros Hup Hemb Hfit Hfree.
  unfold insert_new_chunks, call, try_except, embedding_embed_documents.
  cbv zeta. unfold mbind at 1. unfold M_bind at 1. rewrite Hemb.
  unfold mret at 1. unfold M_ret at 1.
  set (pairs := zip chunks embs) in *.
  set (items := zip (seq 0 (length pairs)) pairs).
  unfold mbind at 1. unfold M_bind at 1.
  rewrite for_each_insert_chunk_fit.
  2:{ apply Forall_forall. intros [i [chunk emb]] Hin.
      apply elem_of_zip_r, elem_of_zip_l in Hin.
      rewrite Forall_forall in Hfit. by apply Hfit. }
  unfold SessionLocal. cbn [txn new_chat new_pdf deleted_chat committed app].
  unfold session_commit, mbind, M_bind, connect. rewrite Hup, flush_pdf.
  assert (PDFEmbedding.id <$> (chunk_row py_str env <$> items)
          = uuid4 env <$> seq 0 (length pairs)) as Hids.
  { assert (items.*1 = seq 0 (length pairs)) as <-.
    { apply fst_zip. rewrite length_seq. lia. }
    rewrite <- !list_fmap_compose. generalize items. intros l.
    induction l as [|x l IH]; [done|]. cbn. by f_equal. }
  rewrite Hids, decide_True by done. reflexivity.
Qed.

Lemma dict_get_missing (md : Metadata) (key : string) (default : MetaVal) :
  key ∉ md.*1 → dict_get md key default = default.
Proof.
  induction md as [|[k v] md IH]; [done|]. cbn [dict_get fmap list_fmap fst].
  intros [Hk Hmd]%not_elem_of_cons. rewrite decide_False by done. by apply IH.
Qed.

(** A chunk that carries neither [user_id] nor [is_public] in its metadata
    is stored under the defaults, owner [""] and not public: no user with a
    non-empty id can retrieve it. *)
Theorem insert_without_owner_is_hidden env (chunks : list Document) d d' :
  insert_new_chunks py_str env chunks d = (Ok true, d') →
  ∃ embs rows,
    embed_documents env (page_content <$> chunks) = Some embs ∧
    pdf_embeddings d' = pdf_embeddings d ++ rows ∧
    Forall2 (λ (pair : Document * Vec) (r : PdfRow),
               "user_id" ∉ (metadata pair.1).*1 →
               "is_public" ∉ (metadata pair.1).*1 →
               PDFEmbedding.chunk_text r = page_content pair.1 ∧
               ∀ u, pdf_visible u r ↔ u = "")
            (zip chunks embs) rows.
Proof.
  intros Hins.
  destruct (insert_new_chunks_cases env chunks d)
    as [Heq|(embs & rows & Hemb & Hrows & Heq)]; rewrite Heq in Hins;
    [discriminate|].
  injection Hins as <-. exists embs, rows. split; [done|]. split; [done|].
  eapply Forall2_impl; [exact Hrows|].
  intros [chunk emb] r (Hu & _ & _ & Hp & _ & Htext & _) Hnou Hnop.
  cbn [fst] in *. rewrite dict_get_missing in Hu by done.
  rewrite dict_get_missing in Hp by done.
  injection Hu as Hu. injection Hp as Hp. split; [done|].
  intros u. unfold pdf_visible. rewrite <- Hu, <- Hp. split.
  - intros [?|?]; [done|discriminate].
  - intros ->. by left.
Qed.

(** *** More on retrieval *)

(** [retrieve_user_memory] returns only documents of stored turns of that
    user, and each document names the user in its metadata. *)
Theorem recall_only_own_turns env user_id query (k : nat) d :
  ∃ rows : list ChatRow,
    retrieve_user_memory cosine_distance env user_id query k d =
      (Ok (memory_document <$> rows), d) ∧
    Forall (λ r, r ∈ chat_history d ∧ ChatHistory.user_id r = user_id) rows ∧
    Forall (λ doc, dict_get (metadata doc) "user_id" (MStr "") = MStr user_id)
           (memory_document <$> rows).
Proof.
  rewrite retrieve_user_memory_eq.
  destruct (embed_query env query) as [query_emb|];
    [destruct (db_up env)|]; try (exists []; by repeat split).
  eexists. split; [done|].
  assert (∀ r, r ∈ filter (λ r, ChatHistory.message r ≠ "")
                     (memory_results cosine_distance query_emb user_id k d) →
               r ∈ chat_history d ∧ ChatHistory.user_id r = user_id) as Hown.
  { intros r [_ Hr%subseteq_take]%list_elem_of_filter.
    rewrite order_by_perm in Hr. apply list_elem_of_filter in Hr. tauto. }
  split.
  - apply Forall_forall. intros r Hr. by apply Hown.
  - apply Forall_fmap, Forall_forall. intros r Hr.
    destruct (Hown r Hr) as [_ <-]. done.
Qed.




(** When [k] covers all the turns of the user, [retrieve_user_memory]
    returns every stored turn of the user that has text. *)
Theorem recall_complete env user_id query (k : nat) d query_emb :
  db_up env = true →
  embed_query env query = Some query_emb →
  length (chat_of user_id (chat_history d)) ≤ k →
  ∃ rows : list ChatRow,
    retrieve_user_memory cosine_distance env user_id query k d =
      (Ok (memory_document <$> rows), d) ∧
    rows ≡ₚ filter (λ r, ChatHistory.message r ≠ "")
              (chat_of user_id (chat_history d)).
Proof.
  intros Hup Hemb Hk. rewrite retrieve_user_memory_eq, Hemb, Hup.
  eexists. split; [done|]. unfold memory_results.
  rewrite take_ge by (by rewrite order_by_perm).
  by rewrite order_by_perm.
Qed.

(** Nothing to return is not an error: with [k = 0], or for a user without
    turns (without visible fragments), the retrieval functions return the
    empty list, whatever the database and the embedding model do. *)
Theorem retrieval_of_nothing env user_id query (k : nat) d :
  (k = 0 ∨ chat_of user_id (chat_history d) = [] →
   retrieve_user_memory cosine_distance env user_id query k d = (Ok [], d)) ∧
  (k = 0 ∨ filter (pdf_visible user_id) (pdf_embeddings d) = [] →
   retrieve_pdf_for_user cosine_distance env user_id query k d = (Ok [], d)).
Proof.
  rewrite retrieve_user_memory_eq, retrieve_pdf_for_user_eq.
  split; intros Hnone;
    (destruct (embed_query env query) as [query_emb|];
       [destruct (db_up env)|]; try done).
  - unfold memory_results. destruct Hnone as [-> | ->]; [by rewrite take_0|].
    assert (order_by (λ r : ChatRow,
              cosine_distance (ChatHistory.embedding r) query_emb) [] = [])
      as -> by (apply Permutation_nil_r, order_by_perm).
    by rewrite take_nil.
  - unfold pdf_results. destruct Hnone as [-> | ->]; [by rewrite take_0|].
    assert (order_by (λ r : PdfRow,
              cosine_distance (PDFEmbedding.embedding r) query_emb) [] = [])
      as -> by (apply Permutation_nil_r, order_by_perm).
    by rewrite take_nil.
Qed.

(** *** Clearing and listing *)

Context {distinct_engine : DistinctEngine}.

Lemma clear_history_all_eq env d :
  clear_history_all env d =
  if db_up env then (Ok tt, mkDB [] (pdf_embeddings d))
  else (Raise OperationalError, d).
Proof. apply (call_execute_commit env (λ d, mkDB [] (pdf_embeddings d))). Qed.

Lemma clear_pdf_by_source_eq env source_name d :
  clear_pdf_by_source env source_name d =
  if db_up env then
    (Ok tt, mkDB (chat_history d)
                 (filter (λ r, PDFEmbedding.source r ≠ source_name)
                         (pdf_embeddings d)))
  else (Raise OperationalError, d).
Proof.
  apply (call_execute_commit env
           (λ d, mkDB (chat_history d)
                      (filter (λ r, PDFEmbedding.source r ≠ source_name)
                              (pdf_embeddings d)))).
Qed.

Lemma clear_pdf_by_source_userid_eq env source_name user_id d :
  clear_pdf_by_source_userid env source_name user_id d =
  if db_up env then
    (Ok tt, mkDB (chat_history d)
                 (filter (λ r, ¬ (PDFEmbedding.source r = source_name ∧
                                  PDFEmbedding.user_id r = user_id))
                         (pdf_embeddings d)))
  else (Raise OperationalError, d).
Proof.
  apply (call_execute_commit env
           (λ d, mkDB (chat_history d)
                      (filter (λ r, ¬ (PDFEmbedding.source r = source_name ∧
                                       PDFEmbedding.user_id r = user_id))
                              (pdf_embeddings d)))).
Qed.

Lemma clear_pdf_by_user_eq env user_id d :
  clear_pdf_by_user env user_id d =
  if db_up env then
    (Ok tt, mkDB (chat_history d)
                 (filter (λ r, PDFEmbedding.user_id r ≠ user_id)
                         (pdf_embeddings d)))
  else (Raise OperationalError, d).
Proof.
  apply (call_execute_commit env
           (λ d, mkDB (chat_history d)
                      (filter (λ r, PDFEmbedding.user_id r ≠ user_id)
                              (pdf_embeddings d)))).
Qed.

Lemma clear_all_pdf_eq env d :
  clear_all_pdf env d =
  if db_up env then (Ok tt, mkDB (chat_history d) [])
  else (Raise OperationalError, d).
Proof. apply (call_execute_commit env (λ d, mkDB (chat_history d) [])). Qed.

Lemma get_pdf_sources_eq env d :
  get_pdf_sources env d =
  ((if db_up env then
      Ok (source_entry <$>
            select_distinct
              ((λ r : PdfRow, (PDFEmbedding.source r, PDFEmbedding.user_id r))
                 <$> pdf_embeddings d))
    else Raise OperationalError), d).
Proof.
  apply (call_query env
           (λ d, select_distinct
                   ((λ r : PdfRow,
                       (PDFEmbedding.source r, PDFEmbedding.user_id r))
                      <$> pdf_embeddings d))
           (fmap source_entry)).
Qed.

Lemma get_available_user_ids_eq env d :
  get_available_user_ids env d =
  ((if db_up env then
      Ok (select_distinct (ChatHistory.user_id <$> chat_history d))
    else Raise OperationalError), d).
Proof.
  apply (call_query env
           (λ d, select_distinct (ChatHistory.user_id <$> chat_history d))
           (λ results, results)).
Qed.

Lemma select_distinct_nil {A : Type} `{EqDecision A} :
  select_distinct (A := A) [] = [].
Proof.
  apply elem_of_nil_inv. intros x Hx.
  apply select_distinct_elem in Hx. by apply elem_of_nil in Hx.
Qed.

(** [get_pdf_sources] lists every pair of a source and its uploader that
    has a stored fragment, each pair once, and nothing else. *)
Theorem pdf_sources_lists_each_pair_once env d :
  db_up env = true →
  ∃ entries,
    get_pdf_sources env d = (Ok entries, d) ∧
    NoDup entries ∧
    (∀ entry, entry ∈ entries → ∃ src u, entry = source_entry (src, u)) ∧
    ∀ src u,
      source_entry (src, u) ∈ entries ↔
      ∃ r, r ∈ pdf_embeddings d ∧
           PDFEmbedding.source r = src ∧ PDFEmbedding.user_id r = u.
Proof.
  intros Hup. rewrite get_pdf_sources_eq, Hup.
  eexists. split; [done|]. split; [|split].
  - apply (NoDup_fmap_2 source_entry), select_distinct_NoDup.
  - intros entry ([src u] & -> & _)%list_elem_of_fmap_1. by exists src, u.
  - intros src u. rewrite (list_elem_of_fmap_inj source_entry).
    rewrite select_distinct_elem, list_elem_of_fmap. split.
    + intros (r & [= -> ->] & Hr). by exists r.
    + intros (r & Hr & <- & <-). by exists r.
Qed.

(** [get_available_user_ids] lists exactly the users that have at least
    one stored turn, each once. *)
Theorem available_user_ids_have_turns env d :
  db_up env = true →
  ∃ ids,
    get_available_user_ids env d = (Ok ids, d) ∧
    NoDup ids ∧
    ∀ u, u ∈ ids ↔ chat_of u (chat_history d) ≠ [].
Proof.
  intros Hup. rewrite get_available_user_ids_eq, Hup.
  eexists. split; [done|]. split; [apply select_distinct_NoDup|].
  intros u. rewrite select_distinct_elem, list_elem_of_fmap. split.
  - intros (r & -> & Hr) Hnone.
    apply (filter_nil_not_elem_of _ _ r) in Hnone; done.
  - intros Hsome. destruct (chat_of u (chat_history d)) as [|r l] eqn:Hu;
      [done|].
    assert (r ∈ chat_of u (chat_history d)) as Hr by (rewrite Hu; by left).
    apply list_elem_of_filter in Hr as [<- Hr]. by exists r.
Qed.

(** A user is listed by [get_available_user_ids] after a successful
    [save_user_message], and is no longer listed after
    [clear_history_by_user], which does not change who else is listed. *)
Theorem user_ids_follow_saves_and_clears env env' user_id message d :
  db_up env' = true →
  (∀ d', save_user_message env user_id message d = (Ok tt, d') →
     ∃ ids, get_available_user_ids env' d' = (Ok ids, d') ∧ user_id ∈ ids) ∧
  (db_up env = true →
     ∃ before after,
       get_available_user_ids env' d = (Ok before, d) ∧
       get_available_user_ids env'
         (clear_history_by_user env user_id d).2 =
         (Ok after, (clear_history_by_user env user_id d).2) ∧
       (user_id ∉ after) ∧
       ∀ v, v ≠ user_id → (v ∈ after ↔ v ∈ before)).
Proof.
  intros Hup'. split.
  - intros d' (emb & Hemb & Hfresh & ->)%save_user_message_ok_inv.
    rewrite get_available_user_ids_eq, Hup'. eexists. split; [done|].
    rewrite select_distinct_elem. cbn [chat_history].
    set (new := ChatHistory.mk _ _ _ _ _).
    apply (list_elem_of_fmap_2' ChatHistory.user_id _ new); [|done].
    apply list_elem_of_filter. split; [by apply new_not_evicted|].
    apply elem_of_app. right. by left.
  - intros Hup. rewrite clear_history_by_user_eq, Hup.
    rewrite !get_available_user_ids_eq, Hup'. cbn [snd chat_history].
    eexists _, _. split; [done|]. split; [done|]. split.
    + rewrite select_distinct_elem.
      intros (r & Hu & [Hr _]%list_elem_of_filter)%list_elem_of_fmap_1.
      by apply Hr.
    + intros v Hv. rewrite !select_distinct_elem, !list_elem_of_fmap. split.
      * intros (r & -> & [_ Hr]%list_elem_of_filter). by exists r.
      * intros (r & -> & Hr). exists r. split; [done|].
        by apply list_elem_of_filter.
Qed.

(** After [clear_pdf_by_source] the source is listed for no uploader, the
    other sources are listed as before, and the chat table is untouched. *)
Theorem clear_pdf_by_source_unlists env env' source_name d :
  db_up env = true →
  db_up env' = true →
  let d' := (clear_pdf_by_source env source_name d).2 in
  chat_history d' = chat_history d ∧
  ∃ before after,
    get_pdf_sources env' d = (Ok before, d) ∧
    get_pdf_sources env' d' = (Ok after, d') ∧
    (∀ u, source_entry (source_name, u) ∉ after) ∧
    ∀ src u, src ≠ source_name →
      (source_entry (src, u) ∈ after ↔ source_entry (src, u) ∈ before).
Proof.
  intros Hup Hup'. cbn zeta. rewrite clear_pdf_by_source_eq, Hup.
  rewrite !get_pdf_sources_eq, Hup'. cbn [snd chat_history pdf_embeddings].
  split; [done|]. eexists _, _. split; [done|]. split; [done|]. split.
  - intros u. rewrite (list_elem_of_fmap_inj source_entry).
    rewrite select_distinct_elem.
    intros (r & [= Hs _] & [Hr _]%list_elem_of_filter)%list_elem_of_fmap_1.
    by apply Hr.
  - intros src u Hsrc. rewrite !(list_elem_of_fmap_inj source_entry).
    rewrite !select_distinct_elem, !list_elem_of_fmap. split.
    + intros (r & Heq & [_ Hr]%list_elem_of_filter). by exists r.
    + intros (r & [= -> ->] & Hr). exists r. split; [done|].
      by apply list_elem_of_filter.
Qed.

(** After [clear_pdf_by_user] no retrieval, for any user, returns a
    fragment that user uploaded, public ones included; what it returns was
    stored before. *)
Theorem clear_pdf_by_user_hides_fragments env env' user_id v query (k : nat) d :
  db_up env = true →
  let d' := (clear_pdf_by_user env user_id d).2 in
  chat_history d' = chat_history d ∧
  ∃ rows : list PdfRow,
    retrieve_pdf_for_user cosine_distance env' v query k d' =
      (Ok (pdf_document <$> rows), d') ∧
    Forall (λ r, PDFEmbedding.user_id r ≠ user_id ∧ r ∈ pdf_embeddings d)
           rows.
Proof.
  intros Hup. cbn zeta. rewrite clear_pdf_by_user_eq, Hup.
  cbn [snd chat_history]. split; [done|].
  rewrite retrieve_pdf_for_user_eq.
  destruct (embed_query env' query) as [query_emb|];
    [destruct (db_up env')|]; try (exists []; by split).
  eexists. split; [done|]. apply Forall_forall. intros r Hr.
  apply pdf_results_visible in Hr as [Hr _]. cbn [pdf_embeddings] in Hr.
  by apply list_elem_of_filter in Hr.
Qed.

(** [clear_pdf_by_source_userid] deletes the fragments of that source
    uploaded by that user and nothing else: the other uploaders keep their
    fragments of the source, the user keeps the other sources, and the chat
    table is untouched.  With PostgreSQL unreachable it raises and nothing
    changes. *)
Theorem clear_pdf_by_source_userid_frame env source_name user_id d :
  let d' := (clear_pdf_by_source_userid env source_name user_id d).2 in
  (db_up env = true →
     (clear_pdf_by_source_userid env source_name user_id d).1 = Ok tt ∧
     filter (λ r, PDFEmbedding.source r = source_name ∧
                  PDFEmbedding.user_id r = user_id) (pdf_embeddings d') = []) ∧
  (db_up env = false →
     clear_pdf_by_source_userid env source_name user_id d =
       (Raise OperationalError, d)) ∧
  (∀ v, v ≠ user_id →
     filter (λ r, PDFEmbedding.user_id r = v) (pdf_embeddings d') =
     filter (λ r, PDFEmbedding.user_id r = v) (pdf_embeddings d)) ∧
  (∀ src, src ≠ source_name →
     filter (λ r, PDFEmbedding.source r = src) (pdf_embeddings d') =
     filter (λ r, PDFEmbedding.source r = src) (pdf_embeddings d)) ∧
  chat_history d' = chat_history d.
Proof.
  cbn zeta. rewrite clear_pdf_by_source_userid_eq.
  destruct (db_up env); cbn [fst snd chat_history pdf_embeddings].
  2:{ split; [done|]. by repeat split. }
  split; [|split; [done|split; [|split; [|done]]]].
  - intros _. split; [done|]. rewrite list_filter_filter.
    apply filter_none. intros r _ [? ?]. done.
  - intros v Hv. rewrite list_filter_filter. apply filter_ext_elem.
    intros r _. split; [by intros [? _]|]. intros Hr. split; [done|].
    intros [_ ?]. congruence.
  - intros src Hsrc. rewrite list_filter_filter. apply filter_ext_elem.
    intros r _. split; [by intros [? _]|]. intros Hr. split; [done|].
    intros [? _]. congruence.
Qed.

Lemma order_by_nil {A : Type} (key : A → Z) : order_by key [] = [].
Proof. apply Permutation_nil_r, order_by_perm. Qed.


(** [clear_all_pdf] leaves no source listed and nothing to retrieve for
    anyone; the chat table is untouched. *)
Theorem clear_all_pdf_empties env env' d :
  db_up env = true →
  let d' := (clear_all_pdf env d).2 in
  chat_history d' = chat_history d ∧
  (db_up env' = true → get_pdf_sources env' d' = (Ok [], d')) ∧
  ∀ u query (k : nat),
    retrieve_pdf_for_user cosine_distance env' u query k d' = (Ok [], d').
Proof.
  intros Hup. cbn zeta. rewrite clear_all_pdf_eq, Hup.
  cbn [snd]. split; [done|]. split.
  - intros Hup'. rewrite get_pdf_sources_eq, Hup'. cbn [pdf_embeddings].
    by rewrite fmap_nil, select_distinct_nil.
  - intros u query k. rewrite retrieve_pdf_for_user_eq.
    destruct (embed_query env' query) as [query_emb|];
      [destruct (db_up env')|]; try done.
    unfold pdf_results. cbn [pdf_embeddings].
    by rewrite filter_nil, order_by_nil, take_nil.
Qed.

Lemma filter_idemp {A : Type} (P : A → Prop) `{∀ x, Decision (P x)}
    (l : list A) :
  filter P (filter P l) = filter P l.
Proof. apply filter_all. by intros x [? _]%list_elem_of_filter. Qed.

(** The clearing functions are idempotent: clearing again what was just
    cleared succeeds and changes nothing. *)
Theorem clearing_twice_changes_nothing env env' d :
  db_up env = true →
  db_up env' = true →
  (∀ u, clear_history_by_user env' u (clear_history_by_user env u d).2 =
        (Ok tt, (clear_history_by_user env u d).2)) ∧
  clear_history_all env' (clear_history_all env d).2 =
    (Ok tt, (clear_history_all env d).2) ∧
  (∀ src, clear_pdf_by_source env' src (clear_pdf_by_source env src d).2 =
          (Ok tt, (clear_pdf_by_source env src d).2)) ∧
  (∀ src u,
     clear_pdf_by_source_userid env' src u
       (clear_pdf_by_source_userid env src u d).2 =
     (Ok tt, (clear_pdf_by_source_userid env src u d).2)) ∧
  (∀ u, clear_pdf_by_user env' u (clear_pdf_by_user env u d).2 =
        (Ok tt, (clear_pdf_by_user env u d).2)) ∧
  clear_all_pdf env' (clear_all_pdf env d).2 =
    (Ok tt, (clear_all_pdf env d).2).
Proof.
  intros Hup Hup'.
  repeat split; intros;
    rewrite ?clear_history_by_user_eq, ?clear_history_all_eq,
      ?clear_pdf_by_source_eq, ?clear_pdf_by_source_userid_eq,
      ?clear_pdf_by_user_eq, ?clear_all_pdf_eq, ?Hup, ?Hup';
    cbn [snd chat_history pdf_embeddings];
    by rewrite ?filter_idemp.
Qed.

(** The functions that only read never change the database, whatever the
    database and the embedding model answer. *)
Theorem reads_leave_database_unchanged env user_id query (k : nat) d :
  (retrieve_user_memory cosine_distance env user_id query k d).2 = d ∧
  (retrieve_pdf_for_user cosine_distance env user_id query k d).2 = d ∧
  (get_all_history env user_id d).2 = d ∧
  (get_pdf_sources env d).2 = d ∧
  (get_available_user_ids env d).2 = d.
Proof.
  rewrite retrieve_user_memory_eq, retrieve_pdf_for_user_eq,
    get_all_history_eq, get_pdf_sources_eq, get_available_user_ids_eq.
  done.
Qed.

Lemma insert_new_chunks_keys env (chunks : list Document) d res :
  insert_new_chunks py_str env chunks d = res →
  res = (Ok false, d) ∨
  ∃ rows,
    keys_free (PDFEmbedding.id <$> pdf_embeddings d)
              (PDFEmbedding.id <$> rows) ∧
    res = (Ok true, mkDB (chat_history d) (pdf_embeddings d ++ rows)).
Proof.
  unfold insert_new_chunks, call, try_except, embedding_embed_documents.
  cbv zeta. unfold mbind at 1. unfold M_bind at 1.
  destruct (embed_documents env (page_content <$> chunks)) as [embs|];
    [|intros <-; by left].
  unfold mret at 1. unfold M_ret at 1.
  set (pairs := zip chunks embs).
  unfold mbind at 1. unfold M_bind at 1.
  destruct (for_each_insert_chunk env (zip (seq 0 (length pairs)) pairs)
              (SessionLocal d)) as [(rows & Hrows & ->)|(s' & -> & Hs')].
  2:{ intros <-. left. unfold mbind, M_bind, session_rollback, mret, M_ret.
      cbn. by rewrite Hs'. }
  unfold SessionLocal. cbn [txn new_chat new_pdf deleted_chat committed app].
  unfold session_commit, mbind, M_bind, connect.
  destruct (db_up env); [|intros <-; left; reflexivity].
  rewrite flush_pdf.
  case_decide as Hfree; [|intros <-; left; reflexivity].
  intros <-. right. exists rows. split; [done|reflexivity].
Qed.

(** Every function that writes keeps the primary keys of both tables
    unique, whether it commits, raises or returns [False]. *)
Theorem primary_keys_kept env d :
  primary_keys d →
  (∀ u message, primary_keys (save_user_message env u message d).2) ∧
  (∀ chunks, primary_keys (insert_new_chunks py_str env chunks d).2) ∧
  (∀ u, primary_keys (clear_history_by_user env u d).2) ∧
  primary_keys (clear_history_all env d).2 ∧
  (∀ src, primary_keys (clear_pdf_by_source env src d).2) ∧
  (∀ src u, primary_keys (clear_pdf_by_source_userid env src u d).2) ∧
  (∀ u, primary_keys (clear_pdf_by_user env u d).2) ∧
  primary_keys (clear_all_pdf env d).2.
Proof.
  intros [Hchat Hpdf].
  assert (∀ (P : PdfRow → Prop) `{∀ r, Decision (P r)},
            NoDup (PDFEmbedding.id <$> filter P (pdf_embeddings d))) as Hsub.
  { intros P ?. apply (NoDup_key_sublist PDFEmbedding.id _ (pdf_embeddings d));
      [apply sublist_filter|done]. }
  split; [|split; [|split; [|split; [|split; [|split; [|split]]]]]].
  - intros u message.
    destruct (save_user_message_cases env u message d)
      as [(emb & _ & _ & Hfresh & ->)|[e ->]]; [|done].
    split; [|done]. cbn [snd chat_history]. by apply saved_NoDup.
  - intros chunks.
    destruct (insert_new_chunks_keys env chunks d _ eq_refl)
      as [->|(rows & [Hnew Hfree] & ->)]; [done|].
    split; [done|]. cbn [snd pdf_embeddings]. rewrite fmap_app.
    apply NoDup_app. split; [done|]. split; [|done].
    intros k Hk Hk'. rewrite Forall_forall in Hfree. by apply (Hfree k).
  - intros u. rewrite clear_history_by_user_eq.
    destruct (db_up env); [|done]. split; [|done]. cbn [snd chat_history].
    apply (NoDup_key_sublist ChatHistory.id _ (chat_history d));
      [apply sublist_filter|done].
  - rewrite clear_history_all_eq. destruct (db_up env); [|done].
    split; [constructor|done].
  - intros src. rewrite clear_pdf_by_source_eq.
    destruct (db_up env); [|done]. split; [done|]. apply Hsub.
  - intros src u. rewrite clear_pdf_by_source_userid_eq.
    destruct (db_up env); [|done]. split; [done|]. apply Hsub.
  - intros u. rewrite clear_pdf_by_user_eq.
    destruct (db_up env); [|done]. split; [done|]. apply Hsub.
  - rewrite clear_all_pdf_eq. destruct (db_up env); [|done].
    split; [done|constructor].
Qed.

(** *** The history after a run on a strict clock *)

(** A list in strictly increasing key order is the only arrangement of its
    elements that is sorted by key. *)
Lemma sorted_perm_strict_eq {A : Type} (key : A → Z) (l l' : list A) :
  l' ≡ₚ l →
  StronglySorted (λ a b, (key a ≤ key b)%Z) l' →
  StronglySorted (λ a b, (key a < key b)%Z) l →
  l' = l.
Proof.
  revert l'. induction l as [|x l IH]; intros l' Hperm Hle Hlt.
  - by apply Permutation_nil_r in Hperm.
  - destruct l' as [|y l'].
    { symmetry in Hperm. by apply Permutation_nil_r in Hperm. }
    apply StronglySorted_inv in Hlt as [Hlt Hx].
    apply StronglySorted_inv in Hle as [Hle Hy].
    rewrite Forall_forall in Hx. rewrite Forall_forall in Hy.
    assert (y = x) as ->.
    { assert (y ∈ x :: l) as Hyin by (rewrite <- Hperm; by left).
      assert (x ∈ y :: l') as Hxin by (rewrite Hperm; by left).
      apply elem_of_cons in Hyin as [Heq|Hyin]; [done|].
      apply elem_of_cons in Hxin as [Heq|Hxin]; [done|].
      specialize (Hx y Hyin). specialize (Hy x Hxin). lia. }
    f_equal. apply IH; [|done..].
    by apply (Permutation_cons_inv (a := x)).
Qed.

Lemma run_inv_strict_step calls c st :
  (∀ t, t ∈ clock calls → (t < time_time (call_env c))%Z) →
  run_inv_strict calls st → run_inv_strict (calls ++ [c]) (step st c).
Proof.
  intros Hclock (Hkey & Hsorted & Hlog & Hlast).
  assert (∀ r, r ∈ st.2 → ChatHistory.timestamp r ∈ clock (calls ++ [c]))
    as Hlog'.
  { intros r Hr. unfold clock. rewrite fmap_app, elem_of_app. left.
    by apply Hlog. }
  destruct (step_cases st c) as [->|(emb & Hfresh & ->)]; [done|].
  set (u := call_user_id c).
  set (new := ChatHistory.mk _ _ _ _ _) in *.
  set (rows := chat_history st.1) in *.
  cbn zeta. split; [|split; [|split]]; cbn [fst snd chat_history].
  - by apply saved_NoDup.
  - apply StronglySorted_app_2; [|done|repeat constructor].
    intros a b Ha ->%list_elem_of_singleton. by apply Hclock, Hlog.
  - intros r [Hr| ->%list_elem_of_singleton]%elem_of_app; [by apply Hlog'|].
    unfold clock. rewrite fmap_app, elem_of_app. right. cbn. by left.
  - intros v. destruct (decide (v = u)) as [->|Hv].
    2:{ rewrite (chat_of_saved_other u new rows Hkey v eq_refl Hv).
        unfold chat_of at 2 3. rewrite filter_app, filter_cons, decide_False by done.
        rewrite filter_nil, app_nil_r. apply Hlast. }
    set (L := chat_of u st.2).
    assert (chat_of u (st.2 ++ [new]) = L ++ [new]) as ->.
    { unfold chat_of. by rewrite filter_app, filter_cons, decide_True. }
    pose proof (Hlast u) as Hu. fold rows L in Hu.
    assert (StronglySorted
              (λ a b, (ChatHistory.timestamp a < ChatHistory.timestamp b)%Z)
              (chat_of u rows)) as Hrows_sorted.
    { rewrite Hu. eapply StronglySorted_sublist; [apply sublist_drop|].
      eapply StronglySorted_sublist; [apply sublist_filter|done]. }
    assert (order_by ChatHistory.timestamp (chat_of u rows) = chat_of u rows)
      as Horder.
    { apply (sorted_perm_strict_eq ChatHistory.timestamp);
        [apply order_by_perm|apply (order_by_sorted _ ChatHistory.timestamp)|
         done]. }
    pose proof (new_not_evicted u new rows Hfresh) as Hnotev.
    rewrite oldest_of_take, Horder in Hnotev.
    rewrite chat_of_saved, filter_app, oldest_of_take, Horder.
    rewrite (filter_key_take ChatHistory.id).
    2:{ apply (NoDup_key_sublist ChatHistory.id _ rows);
          [apply sublist_filter|done]. }
    assert (chat_of u [new] = [new]) as ->.
    { unfold chat_of. by rewrite filter_cons, decide_True. }
    rewrite (filter_all _ [new]).
    2:{ by intros r ->%list_elem_of_singleton. }
    rewrite Hu, drop_drop, length_drop, length_app. cbn [length].
    unfold evict_count, CHAT_HISTORY_LIMIT.
    case_decide; (rewrite drop_app_le by lia); do 2 f_equal; lia.
Qed.

Lemma run_inv_strict_run calls :
  Sorted Z.lt (clock calls) → run_inv_strict calls (run calls).
Proof.
  unfold run. induction calls as [|c calls IH] using rev_ind; intros Hclock.
  - split; [constructor|]. split; [constructor|].
    split; [by intros r ?%elem_of_nil|]. done.
  - rewrite run_from_snoc.
    apply Sorted_StronglySorted in Hclock; [|intros x y z; lia].
    unfold clock in Hclock. rewrite fmap_app in Hclock.
    apply run_inv_strict_step.
    + intros t Ht.
      apply (StronglySorted_app_1_elem_of _ _ _ t (time_time (call_env c)) Hclock);
        [done|]. cbn. by left.
    + apply IH. apply StronglySorted_Sorted.
      by apply StronglySorted_app_1_l in Hclock.
Qed.

(** Whatever the clock reads, a run keeps for every user as many turns as
    were recorded, up to the limit, and each turn kept is a recorded one. *)
Lemma run_kept calls :
  NoDup (ChatHistory.id <$> chat_history (run calls).1) ∧
  ∀ u, length (chat_of u (chat_history (run calls).1)) =
         min CHAT_HISTORY_LIMIT (length (chat_of u (run calls).2)) ∧
       ∃ evicted,
         chat_of u (run calls).2 ≡ₚ
         evicted ++ chat_of u (chat_history (run calls).1).
Proof.
  unfold run. induction calls as [|c calls IH] using rev_ind.
  - split; [constructor|]. intros u. split; [done|]. by exists [].
  - rewrite run_from_snoc. destruct IH as [Hkey IH].
    destruct (step_cases (run_from (mkDB [] [], []) calls) c)
      as [->|(emb & Hfresh & ->)]; [done|].
    set (st := run_from (mkDB [] [], []) calls) in *.
    set (u := call_user_id c).
    set (new := ChatHistory.mk _ _ _ _ _) in *.
    set (rows := chat_history st.1) in *.
    cbn zeta. cbn [fst snd chat_history]. split; [by apply saved_NoDup|].
    intros v. destruct (decide (v = u)) as [->|Hv].
    2:{ rewrite (chat_of_saved_other u new rows Hkey v eq_refl Hv).
        assert (chat_of v (st.2 ++ [new]) = chat_of v st.2) as ->; [|apply IH].
        unfold chat_of. rewrite filter_app, filter_cons, decide_False by done.
        by rewrite filter_nil, app_nil_r. }
    destruct (IH u) as (Hlen & evicted & Hperm).
    set (sorted := order_by ChatHistory.timestamp (chat_of u rows)).
    set (n := evict_count (length (chat_of u rows))).
    assert (chat_of u (st.2 ++ [new]) = chat_of u st.2 ++ [new]) as ->.
    { unfold chat_of. by rewrite filter_app, filter_cons, decide_True. }
    pose proof (chat_of_saved_own u new rows Hkey Hfresh eq_refl) as Hown.
    fold sorted n in Hown. split.
    + rewrite Hown, !length_app, length_drop. unfold sorted.
      rewrite order_by_perm. cbn [length]. unfold n, evict_count.
      revert Hlen. unfold CHAT_HISTORY_LIMIT. case_decide; lia.
    + exists (evicted ++ take n sorted).
      rewrite Hown, Hperm.
      rewrite <- (order_by_perm _ ChatHistory.timestamp (chat_of u rows)).
      fold sorted. rewrite <- (take_drop n sorted) at 1.
      by rewrite <- !app_assoc.
Qed.

(** C2: after any sequence of [save_user_message] calls on the empty
    database a user has as many stored turns as the calls recorded for the
    user, up to [CHAT_HISTORY_LIMIT = 10], each of them a recorded turn.
    When every call reads a later clock than the one before, the turns kept
    are exactly the last ten recorded, in the order of their creation.
    When the clock only never goes back, no evicted turn has a later
    timestamp than a turn kept. *)
Theorem history_bound calls (u : string) :
  let log := chat_of u (run calls).2 in
  let retained := chat_of u (chat_history (run calls).1) in
  length retained ≤ CHAT_HISTORY_LIMIT ∧
  length retained = min CHAT_HISTORY_LIMIT (length log) ∧
  (∃ evicted, log ≡ₚ evicted ++ retained) ∧
  (Sorted Z.lt (clock calls) →
   retained = drop (length log - CHAT_HISTORY_LIMIT) log) ∧
  (Sorted Z.le (clock calls) →
   most_recent CHAT_HISTORY_LIMIT log retained).
Proof.
  cbn zeta. destruct (run_kept calls) as [_ Hkept].
  destruct (Hkept u) as [Hlen Hperm].
  split; [apply run_count_le|]. split; [done|]. split; [done|]. split.
  - intros Hclock. by destruct (run_inv_strict_run calls Hclock) as (_ & _ & _ & ?).
  - intros Hclock. by apply run_inv_run.
Qed.


End Properties.

(** ** The properties on the concrete runs *)

Ltac sorted_clock :=
  cbn; repeat first [apply Sorted_cons | apply Sorted_nil
                    | apply HdRel_cons | apply HdRel_nil]; lia.

(** The specification's scenario: after [msg01] .. [msg12] the history of
    [u1] is [msg03] .. [msg12], in that order, whichever engine sorts. *)
Example history_after_twelve_messages :
  (get_all_history (engine := forward_scan_engine) (env_ok 13 "z") "u1"
     (run (engine := forward_scan_engine) twelve_calls).1).1 =
  Ok ["msg03"; "msg04"; "msg05"; "msg06"; "msg07"; "msg08"; "msg09"; "msg10";
      "msg11"; "msg12"] ∧
  (get_all_history (engine := backward_scan_engine) (env_ok 13 "z") "u1"
     (run (engine := backward_scan_engine) twelve_calls).1).1 =
  Ok ["msg03"; "msg04"; "msg05"; "msg06"; "msg07"; "msg08"; "msg09"; "msg10";
      "msg11"; "msg12"].
Proof. split; vm_compute; reflexivity. Qed.

Lemma history_bound_witness :
  Sorted Z.lt (clock twelve_calls) ∧
  ChatHistory.message <$>
    chat_of "u1" (run (engine := forward_scan_engine) twelve_calls).2 =
    ["msg01"; "msg02"; "msg03"; "msg04"; "msg05"; "msg06"; "msg07"; "msg08";
     "msg09"; "msg10"; "msg11"; "msg12"] ∧
  ChatHistory.message <$>
    chat_of "u1"
      (chat_history (run (engine := forward_scan_engine) twelve_calls).1) =
    ["msg03"; "msg04"; "msg05"; "msg06"; "msg07"; "msg08"; "msg09"; "msg10";
     "msg11"; "msg12"] ∧
  most_recent CHAT_HISTORY_LIMIT
    (chat_of "u1" (run (engine := forward_scan_engine) twelve_calls).2)
    (chat_of "u1"
       (chat_history (run (engine := forward_scan_engine) twelve_calls).1)).
Proof.
  assert (Sorted Z.lt (clock twelve_calls)) as Hlt by sorted_clock.
  assert (Sorted Z.le (clock twelve_calls)) as Hle by sorted_clock.
  pose proof (history_bound (engine := forward_scan_engine) twelve_calls "u1")
    as Hbound.
  cbn zeta in Hbound. destruct Hbound as (_ & _ & _ & Hlast & Hrecent).
  split; [exact Hlt|]. split; [vm_compute; reflexivity|]. split.
  - rewrite (Hlast Hlt). vm_compute. reflexivity.
  - exact (Hrecent Hle).
Defined.

Lemma insert_aborts_when_embedding_fails_witness :
  embed_documents (env_embedding_down 3 "r") (page_content <$> five_chunks)
    = None ∧
  insert_new_chunks keys_str (env_embedding_down 3 "r") five_chunks db_docs
    = (Ok false, db_docs).
Proof.
  split; [reflexivity|].
  apply (insert_aborts_when_embedding_fails keys_str). reflexivity.
Defined.

Lemma save_aborts_when_embedding_fails_witness :
  embed_query (env_embedding_down 11 "k") "msg11" = None ∧
  ∃ e, save_user_message (engine := forward_scan_engine)
         (env_embedding_down 11 "k") "u1" "msg11" db_full = (Raise e, db_full).
Proof.
  split; [reflexivity|].
  apply (save_aborts_when_embedding_fails (engine := forward_scan_engine)).
  reflexivity.
Defined.

Lemma eviction_oldest_by_timestamp_witness :
  let d' := (save_user_message (engine := forward_scan_engine)
               (env_ok 11 "k") "u1" "msg11" db_full).2 in
  NoDup (ChatHistory.id <$> chat_history db_full) ∧
  save_user_message (engine := forward_scan_engine)
    (env_ok 11 "k") "u1" "msg11" db_full = (Ok tt, d') ∧
  length (chat_of "u1" (chat_history d')) =
    min CHAT_HISTORY_LIMIT (length (chat_of "u1" (chat_history db_full)) + 1) ∧
  ∀ e r : ChatHistory.t Z,
    e ∈ chat_of "u1" (chat_history db_full) →
    r ∈ chat_of "u1" (chat_history db_full) →
    e ∉ chat_history d' → r ∈ chat_history d' →
    (ChatHistory.timestamp e ≤ ChatHistory.timestamp r)%Z.
Proof.
  intros d'.
  assert (NoDup (ChatHistory.id <$> chat_history db_full)) as Hkey.
  { apply (bool_decide_unpack _). vm_compute. exact I. }
  assert (save_user_message (engine := forward_scan_engine)
            (env_ok 11 "k") "u1" "msg11" db_full = (Ok tt, d')) as Hsave.
  { vm_compute. reflexivity. }
  split; [exact Hkey|]. split; [exact Hsave|].
  exact (eviction_oldest_by_timestamp (engine := forward_scan_engine)
           (env_ok 11 "k") "u1" "msg11" db_full d' Hkey Hsave).
Defined.

Lemma retrieval_ascending_distance_witness :
  embed_query (env_ok 5 "z") "xxxx" = Some 4%Z ∧
  (∃ rows : list (ChatHistory.t Z),
     retrieve_user_memory abs_distance (engine := forward_scan_engine)
       (env_ok 5 "z") "u1" "xxxx" 3 db_two_users =
       (Ok (memory_document <$> rows), db_two_users) ∧
     length rows ≤ 3 ∧
     rows ⊆ chat_of "u1" (chat_history db_two_users) ∧
     StronglySorted
       (λ a b, (abs_distance (ChatHistory.embedding a) 4 ≤
                abs_distance (ChatHistory.embedding b) 4)%Z) rows) ∧
  (∃ rows : list (PDFEmbedding.t Z),
     retrieve_pdf_for_user abs_distance (engine := forward_scan_engine)
       (env_ok 5 "z") "u1" "xxxx" 3 db_docs =
       (Ok (pdf_document <$> rows), db_docs) ∧
     length rows ≤ 3 ∧
     rows ⊆ filter (pdf_visible "u1") (pdf_embeddings db_docs) ∧
     StronglySorted
       (λ a b, (abs_distance (PDFEmbedding.embedding a) 4 ≤
                abs_distance (PDFEmbedding.embedding b) 4)%Z) rows).
Proof.
  assert (embed_query (env_ok 5 "z") "xxxx" = Some 4%Z) as Hemb by reflexivity.
  split; [exact Hemb|]. split.
  - exact (proj1 (retrieval_ascending_distance abs_distance
                    (engine := forward_scan_engine)
                    (env_ok 5 "z") "u1" "xxxx" 3 db_two_users 4%Z Hemb)).
  - exact (proj2 (retrieval_ascending_distance abs_distance
                    (engine := forward_scan_engine)
                    (env_ok 5 "z") "u1" "xxxx" 3 db_docs 4%Z Hemb)).
Defined.

Lemma retrieval_storage_failure_returns_empty_witness :
  db_up (env_db_down 5 "z") = false ∧
  retrieve_user_memory abs_distance (engine := forward_scan_engine)
    (env_db_down 5 "z") "u1" "hello" 3 db_two_users = (Ok [], db_two_users) ∧
  retrieve_pdf_for_user abs_distance (engine := forward_scan_engine)
    (env_db_down 5 "z") "u1" "hello" 3 db_two_users = (Ok [], db_two_users).
Proof.
  split; [reflexivity|].
  apply (retrieval_storage_failure_returns_empty abs_distance
           (engine := forward_scan_engine)).
  reflexivity.
Defined.


Lemma recall_skips_empty_messages_witness :
  length (chat_of "u1" (chat_history db_two_users)) = 3 ∧
  ∃ docs,
    retrieve_user_memory abs_distance (engine := forward_scan_engine)
      (env_ok 5 "z") "u1" "xxxx" 3 db_two_users = (Ok docs, db_two_users) ∧
    Forall (λ doc, page_content doc ≠ "") docs ∧
    length docs = 2.
Proof.
  split; [reflexivity|].
  destruct (recall_skips_empty_messages abs_distance
              (engine := forward_scan_engine)
              (env_ok 5 "z") "u1" "xxxx" 3 db_two_users)
    as [(docs & Heq & Hall & Hlen) _].
  exists docs. split; [exact Heq|]. split; [exact Hall|].
  specialize (Hlen 4%Z eq_refl eq_refl).
  change (length docs + 1 = 3) in Hlen. lia.
Defined.

Lemma clear_history_by_user_frame_witness :
  db_up (env_ok 5 "z") = true ∧
  let d' := (clear_history_by_user (env_ok 5 "z") "u1" db_two_users).2 in
  (clear_history_by_user (env_ok 5 "z") "u1" db_two_users).1 = Ok tt ∧
  chat_of "u1" (chat_history d') = [] ∧
  chat_of "u2" (chat_history d') = chat_of "u2" (chat_history db_two_users) ∧
  pdf_embeddings d' = pdf_embeddings db_two_users.
Proof.
  split; [reflexivity|]. intros d'.
  destruct (clear_history_by_user_frame (env_ok 5 "z") "u1" db_two_users)
    as (Hup & Hother & Hpdf).
  destruct (Hup eq_refl) as (Hok & _ & Hgone).
  split; [exact Hok|]. split; [exact Hgone|]. split; [|exact Hpdf].
  apply Hother. discriminate.
Defined.

(** *** Where the code departs from the specification *)

(** C4: with PostgreSQL unreachable both retrieval functions return the
    empty list, not an error, although records match: the same queries
    return documents when the database is up. *)
Lemma storage_failure_masked_as_empty :
  (retrieve_user_memory abs_distance (engine := forward_scan_engine)
     (env_ok 5 "z") "u1" "hello" 3 db_two_users).1 ≠ Ok [] ∧
  retrieve_user_memory abs_distance (engine := forward_scan_engine)
    (env_db_down 5 "z") "u1" "hello" 3 db_two_users = (Ok [], db_two_users) ∧
  (retrieve_pdf_for_user abs_distance (engine := forward_scan_engine)
     (env_ok 5 "z") "u1" "hello" 3 db_docs).1 ≠ Ok [] ∧
  retrieve_pdf_for_user abs_distance (engine := forward_scan_engine)
    (env_db_down 5 "z") "u1" "hello" 3 db_docs = (Ok [], db_docs).
Proof. repeat split; vm_compute; congruence. Qed.

(** C5: two turns at one distance from the query ([abcd] stored first,
    [wxyz] second); an engine that scans backward returns the later one
    first.  The same for two fragments. *)
Lemma equal_distance_later_record_first :
  let d := (run (engine := backward_scan_engine)
              [say 1 "a" "u1" "abcd"; say 2 "b" "u1" "wxyz"]).1 in
  let p := (insert_new_chunks keys_str (env_ok 1 "p")
              [chunk "abcd" "u1" "doc.pdf" 0; chunk "wxyz" "u1" "doc.pdf" 0]
              (mkDB [] [])).2 in
  (ChatHistory.message <$> chat_history d = ["abcd"; "wxyz"] ∧
   ChatHistory.timestamp <$> chat_history d = [1%Z; 2%Z] ∧
   (λ r, abs_distance (ChatHistory.embedding r) (length_embedding "xxxx"))
     <$> chat_history d = [0%Z; 0%Z] ∧
   option_map (fmap page_content)
     (match (retrieve_user_memory abs_distance (engine := backward_scan_engine)
               (env_ok 3 "c") "u1" "xxxx" 3 d).1 with
      | Ok docs => Some docs | Raise _ => None end)
   = Some ["wxyz"; "abcd"]) ∧
  (PDFEmbedding.chunk_text <$> pdf_embeddings p = ["abcd"; "wxyz"] ∧
   (λ r, abs_distance (PDFEmbedding.embedding r) (length_embedding "xxxx"))
     <$> pdf_embeddings p = [0%Z; 0%Z] ∧
   option_map (fmap page_content)
     (match (retrieve_pdf_for_user abs_distance (engine := backward_scan_engine)
               (env_ok 3 "c") "u1" "xxxx" 3 p).1 with
      | Ok docs => Some docs | Raise _ => None end)
   = Some ["wxyz"; "abcd"]).
Proof. vm_compute. repeat split. Qed.

(** C6: [msg01] and [msg02] carry one timestamp and [msg01] was inserted
    first; at the eleventh message an engine that scans backward evicts
    [msg02] and keeps [msg01]. *)
Lemma tied_timestamps_evict_later_insert :
  let before := (run (engine := backward_scan_engine) (take 10 tied_calls)).1 in
  let after := (run (engine := backward_scan_engine) tied_calls).1 in
  ChatHistory.message <$> chat_history before =
    ["msg01"; "msg02"; "msg03"; "msg04"; "msg05"; "msg06"; "msg07"; "msg08";
     "msg09"; "msg10"] ∧
  ChatHistory.timestamp <$> take 2 (chat_history before) = [1%Z; 1%Z] ∧
  ChatHistory.message <$> chat_history after =
    ["msg01"; "msg03"; "msg04"; "msg05"; "msg06"; "msg07"; "msg08"; "msg09";
     "msg10"; "msg11"].
Proof. vm_compute. repeat split. Qed.

(** C2: the turns kept are not always the most recent by creation.  With
    [msg01] and [msg02] on one clock reading (the clock never goes back) a
    backward-scanning engine evicts [msg02] and keeps the earlier [msg01].
    With the clock set back before [msg11], the twelfth save evicts [msg11]
    and keeps [msg02]: what is kept is neither the last ten turns created
    nor the ten with the latest timestamps ([msg01], at 2, is gone and
    [msg12], at 1, is kept). *)
Lemma later_turn_evicted_earlier_kept :
  (Sorted Z.le (clock tied_calls) ∧
   ChatHistory.message <$>
     chat_of "u1" (run (engine := backward_scan_engine) tied_calls).2 =
     ["msg01"; "msg02"; "msg03"; "msg04"; "msg05"; "msg06"; "msg07"; "msg08";
      "msg09"; "msg10"; "msg11"] ∧
   ChatHistory.message <$>
     chat_of "u1"
       (chat_history (run (engine := backward_scan_engine) tied_calls).1) =
     ["msg01"; "msg03"; "msg04"; "msg05"; "msg06"; "msg07"; "msg08"; "msg09";
      "msg10"; "msg11"]) ∧
  (clock clock_back_calls = [2; 3; 4; 5; 6; 7; 8; 9; 10; 11; 0; 1]%Z ∧
   ChatHistory.message <$>
     chat_of "u1" (run (engine := forward_scan_engine) clock_back_calls).2 =
     ["msg01"; "msg02"; "msg03"; "msg04"; "msg05"; "msg06"; "msg07"; "msg08";
      "msg09"; "msg10"; "msg11"; "msg12"] ∧
   ChatHistory.message <$>
     chat_of "u1"
       (chat_history (run (engine := forward_scan_engine) clock_back_calls).1) =
     ["msg02"; "msg03"; "msg04"; "msg05"; "msg06"; "msg07"; "msg08"; "msg09";
      "msg10"; "msg12"]).
Proof.
  split; [split; [sorted_clock|]|]; vm_compute; repeat split.
Qed.


(** What PostgreSQL refuses, [insert_new_chunks] answers with [False] and
    stores nothing of the batch: a visibility outside the range of the
    integer column, a text that contains the NUL character. *)
Example insert_refuses_what_the_columns_refuse :
  insert_new_chunks dict_str (env_ok 3 "r")
    [chunk "one" "u1" "doc.pdf" 0; chunk "two" "u1" "doc.pdf" 2147483648]
    db_docs = (Ok false, db_docs) ∧
  insert_new_chunks dict_str (env_ok 3 "r")
    [chunk "one" "u1" "doc.pdf" 0; chunk (String Ascii.zero "two") "u1" "doc.pdf" 0]
    db_docs = (Ok false, db_docs) ∧
  (insert_new_chunks dict_str (env_ok 3 "r")
     [chunk "one" "u1" "doc.pdf" 0; chunk "two" "u1" "doc.pdf" 2147483647]
     db_docs).1 = Ok true.
Proof. vm_compute. repeat split. Qed.

(** *** The other functions on the concrete runs *)


Lemma history_shows_saved_message_witness :
  let d' := (save_user_message (engine := forward_scan_engine)
               (env_ok 11 "k") "u1" "msg11" db_full).2 in
  save_user_message (engine := forward_scan_engine)
    (env_ok 11 "k") "u1" "msg11" db_full = (Ok tt, d') ∧
  db_up (env_ok 12 "z") = true ∧
  (∀ r, r ∈ chat_of "u1" (chat_history db_full) →
        (ChatHistory.timestamp r < 11)%Z) ∧
  ∃ msgs,
    get_all_history (engine := forward_scan_engine) (env_ok 12 "z") "u1" d'
      = (Ok msgs, d') ∧
    "msg11" ∈ msgs ∧ last msgs = Some "msg11".
Proof.
  intros d'.
  assert (save_user_message (engine := forward_scan_engine)
            (env_ok 11 "k") "u1" "msg11" db_full = (Ok tt, d')) as Hsave
    by (vm_compute; reflexivity).
  assert (∀ r, r ∈ chat_of "u1" (chat_history db_full) →
               (ChatHistory.timestamp r < 11)%Z) as Hlater.
  { apply Forall_forall. vm_compute. repeat constructor. }
  split; [exact Hsave|]. split; [reflexivity|]. split; [exact Hlater|].
  destruct (history_shows_saved_message (engine := forward_scan_engine)
              (env_ok 11 "k") (env_ok 12 "z") "u1" "msg11" db_full d'
              Hsave eq_refl) as (msgs & Hhist & Hin & Hlast).
  exists msgs. split; [exact Hhist|]. split; [exact Hin|].
  exact (Hlast Hlater).
Defined.

Lemma save_leaves_other_users_alone_witness :
  NoDup (ChatHistory.id <$> chat_history db_two_users) ∧
  "u2" ≠ "u1" ∧
  let d' := (save_user_message (engine := forward_scan_engine)
               (env_ok 5 "e") "u1" "again" db_two_users).2 in
  chat_of "u2" (chat_history d') = chat_of "u2" (chat_history db_two_users) ∧
  pdf_embeddings d' = pdf_embeddings db_two_users.
Proof.
  assert (NoDup (ChatHistory.id <$> chat_history db_two_users)) as Hkey.
  { apply (bool_decide_unpack _). vm_compute. exact I. }
  assert ("u2" ≠ "u1") as Hne by discriminate.
  split; [exact Hkey|]. split; [exact Hne|].
  exact (save_leaves_other_users_alone (engine := forward_scan_engine)
           (env_ok 5 "e") "u1" "again" db_two_users "u2" Hkey Hne).
Defined.

Lemma save_commits_only_if_witness :
  let d' := (save_user_message (engine := forward_scan_engine)
               (env_ok 11 "k") "u1" "msg11" db_full).2 in
  save_user_message (engine := forward_scan_engine)
    (env_ok 11 "k") "u1" "msg11" db_full = (Ok tt, d') ∧
  (uuid4 (env_ok 11 "k") 0 ∉ (ChatHistory.id <$> chat_history db_full)) ∧
  ChatHistory.mk "k-0" "u1" "msg11" 5%Z 11%Z ∈ chat_history d' ∧
  uuid4 (env_ok 11 "a") 0 ∈ (ChatHistory.id <$> chat_history db_full) ∧
  (save_user_message (engine := forward_scan_engine)
     (env_ok 11 "a") "u1" "msg11" db_full).1 = Raise IntegrityError ∧
  (save_user_message (engine := forward_scan_engine)
     (env_ok 11 "a") "u1" "msg11" db_full).2 = db_full.
Proof.
  intros d'.
  assert (save_user_message (engine := forward_scan_engine)
            (env_ok 11 "k") "u1" "msg11" db_full = (Ok tt, d')) as Hok
    by (vm_compute; reflexivity).
  destruct (proj1 (save_commits_only_if (engine := forward_scan_engine)
                     (env_ok 11 "k") "u1" "msg11" db_full) d' Hok)
    as (_ & Hfresh & _ & emb & Hemb & Hin).
  vm_compute in Hemb. injection Hemb as <-.
  split; [exact Hok|]. split; [exact Hfresh|]. split; [exact Hin|].
  split; [apply (bool_decide_unpack _); vm_compute; exact I|].
  assert (save_user_message (engine := forward_scan_engine)
            (env_ok 11 "a") "u1" "msg11" db_full =
          (Raise IntegrityError,
           (save_user_message (engine := forward_scan_engine)
              (env_ok 11 "a") "u1" "msg11" db_full).2)) as Hraise
    by (vm_compute; reflexivity).
  split; [vm_compute; reflexivity|].
  exact (proj2 (save_commits_only_if (engine := forward_scan_engine)
                  (env_ok 11 "a") "u1" "msg11" db_full) _ _ Hraise).
Defined.

Lemma insert_returns_flag_witness :
  ∃ (b : bool) (rows : list (PDFEmbedding.t Z)),
    (insert_new_chunks keys_str (env_db_down 3 "r") five_chunks db_docs).1
      = Ok b ∧
    chat_history
      (insert_new_chunks keys_str (env_db_down 3 "r") five_chunks db_docs).2
      = chat_history db_docs ∧
    pdf_embeddings
      (insert_new_chunks keys_str (env_db_down 3 "r") five_chunks db_docs).2
      = pdf_embeddings db_docs ++ rows ∧
    (b = false →
     insert_new_chunks keys_str (env_db_down 3 "r") five_chunks db_docs
       = (Ok false, db_docs)).
Proof.
  exact (insert_returns_flag keys_str (env_db_down 3 "r") five_chunks db_docs).
Defined.

Lemma insert_row_count_witness :
  let d' := (insert_new_chunks keys_str (env_two_vectors 3 "r") five_chunks
               db_docs).2 in
  insert_new_chunks keys_str (env_two_vectors 3 "r") five_chunks db_docs
    = (Ok true, d') ∧
  length five_chunks = 5 ∧
  length (pdf_embeddings d') = length (pdf_embeddings db_docs) + 2.
Proof.
  intros d'.
  assert (insert_new_chunks keys_str (env_two_vectors 3 "r") five_chunks db_docs
          = (Ok true, d')) as Hins by (vm_compute; reflexivity).
  split; [exact Hins|]. split; [reflexivity|].
  destruct (insert_row_count keys_str (env_two_vectors 3 "r") five_chunks
              db_docs d' Hins) as (embs & Hemb & Hlen).
  vm_compute in Hemb. injection Hemb as <-. exact Hlen.
Defined.

Lemma insert_succeeds_witness :
  db_up (env_ok 1 "p") = true ∧
  Forall columns_fit (five_chunks ++ [numbered_chunk]) ∧
  insert_new_chunks dict_str (env_ok 1 "p") (five_chunks ++ [numbered_chunk])
    (mkDB [] []) =
  (Ok true,
   mkDB []
     (chunk_row dict_str (env_ok 1 "p") <$>
        zip (seq 0 6)
            (zip (five_chunks ++ [numbered_chunk]) [3; 3; 5; 4; 4; 4]%Z))) ∧
  PDFEmbedding.user_id <$>
    (chunk_row dict_str (env_ok 1 "p") <$>
       zip (seq 0 6)
           (zip (five_chunks ++ [numbered_chunk]) [3; 3; 5; 4; 4; 4]%Z)) =
  ["u1"; "u1"; "u1"; "u1"; "u1"; "5"].
Proof.
  assert (Forall columns_fit (five_chunks ++ [numbered_chunk])) as Hfit.
  { repeat constructor; by eexists. }
  assert (keys_free (PDFEmbedding.id <$> pdf_embeddings (@mkDB Z [] []))
            (uuid4 (env_ok 1 "p") <$>
               seq 0 (length (zip (five_chunks ++ [numbered_chunk])
                                  [3; 3; 5; 4; 4; 4]%Z))))
    as Hfree.
  { apply (bool_decide_unpack _). vm_compute. exact I. }
  split; [reflexivity|]. split; [exact Hfit|]. split; [|reflexivity].
  exact (insert_succeeds dict_str (env_ok 1 "p")
           (five_chunks ++ [numbered_chunk]) [3; 3; 5; 4; 4; 4]%Z
           (mkDB [] []) eq_refl eq_refl Hfit Hfree).
Defined.

Lemma insert_without_owner_is_hidden_witness :
  let d' := (insert_new_chunks keys_str (env_ok 1 "p") bare_chunks
               (mkDB [] [])).2 in
  insert_new_chunks keys_str (env_ok 1 "p") bare_chunks (mkDB [] [])
    = (Ok true, d') ∧
  ∃ r : PDFEmbedding.t Z,
    r ∈ pdf_embeddings d' ∧ PDFEmbedding.chunk_text r = "anonymous" ∧
    ∀ u, pdf_visible u r ↔ u = "".
Proof.
  intros d'.
  assert (insert_new_chunks keys_str (env_ok 1 "p") bare_chunks (mkDB [] [])
          = (Ok true, d')) as Hins by (vm_compute; reflexivity).
  split; [exact Hins|].
  destruct (insert_without_owner_is_hidden keys_str (env_ok 1 "p") bare_chunks
              (mkDB [] []) d' Hins) as (embs & rows & Hemb & Hpdf & Hrows).
  vm_compute in Hemb. injection Hemb as <-. cbn [zip zip_with bare_chunks] in Hrows.
  apply Forall2_cons_inv_l in Hrows as (r1 & rows' & _ & Hrows & ->).
  apply Forall2_cons_inv_l in Hrows as (r2 & rows'' & Hr2 & _ & ->).
  exists r2. rewrite Hpdf. split.
  - cbn. right. by left.
  - apply Hr2; cbn; apply not_elem_of_nil.
Defined.



Lemma recall_complete_witness :
  db_up (env_ok 5 "z") = true ∧
  embed_query (env_ok 5 "z") "xxxx" = Some 4%Z ∧
  length (chat_of "u1" (chat_history db_two_users)) ≤ 3 ∧
  ∃ rows : list (ChatHistory.t Z),
    retrieve_user_memory abs_distance (engine := forward_scan_engine)
      (env_ok 5 "z") "u1" "xxxx" 3 db_two_users =
      (Ok (memory_document <$> rows), db_two_users) ∧
    rows ≡ₚ filter (λ r, ChatHistory.message r ≠ "")
              (chat_of "u1" (chat_history db_two_users)).
Proof.
  assert (length (chat_of "u1" (chat_history db_two_users)) ≤ 3) as Hk
    by (vm_compute; lia).
  split; [reflexivity|]. split; [reflexivity|]. split; [exact Hk|].
  exact (recall_complete abs_distance (engine := forward_scan_engine)
           (env_ok 5 "z") "u1" "xxxx" 3 db_two_users 4%Z eq_refl eq_refl Hk).
Defined.

Lemma retrieval_of_nothing_witness :
  chat_of "u3" (chat_history db_two_users) = [] ∧
  retrieve_user_memory abs_distance (engine := forward_scan_engine)
    (env_ok 5 "z") "u3" "hello" 3 db_two_users = (Ok [], db_two_users) ∧
  retrieve_pdf_for_user abs_distance (engine := forward_scan_engine)
    (env_ok 5 "z") "u1" "hello" 0 db_docs = (Ok [], db_docs).
Proof.
  split; [reflexivity|]. split.
  - apply (proj1 (retrieval_of_nothing abs_distance
                    (engine := forward_scan_engine)
                    (env_ok 5 "z") "u3" "hello" 3 db_two_users)).
    right. reflexivity.
  - apply (proj2 (retrieval_of_nothing abs_distance
                    (engine := forward_scan_engine)
                    (env_ok 5 "z") "u1" "hello" 0 db_docs)).
    left. reflexivity.
Defined.

Lemma pdf_sources_lists_each_pair_once_witness :
  db_up (env_ok 5 "z") = true ∧
  ∃ entries,
    get_pdf_sources (distinct_engine := first_occurrence_engine)
      (env_ok 5 "z") db_docs = (Ok entries, db_docs) ∧
    NoDup entries ∧
    source_entry ("doc.pdf", "u1") ∈ entries ∧
    source_entry ("doc.pdf", "u2") ∉ entries.
Proof.
  split; [reflexivity|].
  destruct (pdf_sources_lists_each_pair_once
              (distinct_engine := first_occurrence_engine)
              (env_ok 5 "z") db_docs eq_refl)
    as (entries & Heq & Hnodup & _ & Hiff).
  exists entries. split; [exact Heq|]. split; [exact Hnodup|]. split.
  - apply Hiff.
    exists (PDFEmbedding.mk "p-0" "u1" "doc.pdf" "doc.pdf" 0 "one" 3%Z
              "user_id,filename,source,is_public,page").
    split; [|split; reflexivity]. by left.
  - intros (r & Hr & Hsrc & Hu)%Hiff.
    assert (Forall (λ r : PDFEmbedding.t Z,
                      ¬ (PDFEmbedding.source r = "doc.pdf" ∧
                         PDFEmbedding.user_id r = "u2"))
                   (pdf_embeddings db_docs)) as Hall.
    { repeat constructor; intros [? ?]; discriminate. }
    rewrite Forall_forall in Hall. by apply (Hall r Hr).
Defined.

Lemma available_user_ids_have_turns_witness :
  db_up (env_ok 5 "z") = true ∧
  ∃ ids,
    get_available_user_ids (distinct_engine := first_occurrence_engine)
      (env_ok 5 "z") db_two_users = (Ok ids, db_two_users) ∧
    NoDup ids ∧ "u1" ∈ ids ∧ "u2" ∈ ids ∧ "u3" ∉ ids.
Proof.
  split; [reflexivity|].
  destruct (available_user_ids_have_turns
              (distinct_engine := first_occurrence_engine)
              (env_ok 5 "z") db_two_users eq_refl)
    as (ids & Heq & Hnodup & Hiff).
  exists ids. split; [exact Heq|]. split; [exact Hnodup|].
  split; [|split].
  - apply Hiff. vm_compute. discriminate.
  - apply Hiff. vm_compute. discriminate.
  - intros Hin%Hiff. apply Hin. reflexivity.
Defined.

Lemma user_ids_follow_saves_and_clears_witness :
  db_up (env_ok 6 "z") = true ∧
  db_up (env_ok 5 "e") = true ∧
  (∃ d',
     save_user_message (engine := forward_scan_engine)
       (env_ok 5 "e") "u3" "first" db_two_users = (Ok tt, d') ∧
     ∃ ids,
       get_available_user_ids (distinct_engine := first_occurrence_engine)
         (env_ok 6 "z") d' = (Ok ids, d') ∧ "u3" ∈ ids) ∧
  ∃ after,
    get_available_user_ids (distinct_engine := first_occurrence_engine)
      (env_ok 6 "z")
      (clear_history_by_user (env_ok 5 "e") "u1" db_two_users).2 =
      (Ok after, (clear_history_by_user (env_ok 5 "e") "u1" db_two_users).2) ∧
    "u1" ∉ after.
Proof.
  split; [reflexivity|]. split; [reflexivity|].
  destruct (user_ids_follow_saves_and_clears (engine := forward_scan_engine)
              (distinct_engine := first_occurrence_engine)
              (env_ok 5 "e") (env_ok 6 "z") "u3" "first" db_two_users eq_refl)
    as [Hsave _].
  destruct (user_ids_follow_saves_and_clears (engine := forward_scan_engine)
              (distinct_engine := first_occurrence_engine)
              (env_ok 5 "e") (env_ok 6 "z") "u1" "first" db_two_users eq_refl)
    as [_ Hclear].
  split.
  - eexists. split; [vm_compute; reflexivity|]. apply Hsave.
    vm_compute. reflexivity.
  - destruct (Hclear eq_refl) as (before & after & _ & Hafter & Hgone & _).
    exists after. split; [exact Hafter|exact Hgone].
Defined.

Lemma clear_pdf_by_source_unlists_witness :
  db_up (env_ok 5 "e") = true ∧
  db_up (env_ok 6 "z") = true ∧
  let d' := (clear_pdf_by_source (env_ok 5 "e") "doc.pdf" db_docs).2 in
  chat_history d' = chat_history db_docs ∧
  ∃ before after,
    get_pdf_sources (distinct_engine := first_occurrence_engine)
      (env_ok 6 "z") db_docs = (Ok before, db_docs) ∧
    get_pdf_sources (distinct_engine := first_occurrence_engine)
      (env_ok 6 "z") d' = (Ok after, d') ∧
    (∀ u, source_entry ("doc.pdf", u) ∉ after) ∧
    ∀ src u, src ≠ "doc.pdf" →
      (source_entry (src, u) ∈ after ↔ source_entry (src, u) ∈ before).
Proof.
  split; [reflexivity|]. split; [reflexivity|].
  exact (clear_pdf_by_source_unlists
           (distinct_engine := first_occurrence_engine)
           (env_ok 5 "e") (env_ok 6 "z") "doc.pdf" db_docs eq_refl eq_refl).
Defined.

Lemma clear_pdf_by_user_hides_fragments_witness :
  db_up (env_ok 5 "e") = true ∧
  let d' := (clear_pdf_by_user (env_ok 5 "e") "u2" db_docs).2 in
  chat_history d' = chat_history db_docs ∧
  ∃ rows : list (PDFEmbedding.t Z),
    retrieve_pdf_for_user abs_distance (engine := forward_scan_engine)
      (env_ok 6 "z") "u1" "xxxx" 9 d' = (Ok (pdf_document <$> rows), d') ∧
    Forall (λ r, PDFEmbedding.user_id r ≠ "u2" ∧ r ∈ pdf_embeddings db_docs)
           rows.
Proof.
  split; [reflexivity|].
  exact (clear_pdf_by_user_hides_fragments abs_distance
           (engine := forward_scan_engine)
           (env_ok 5 "e") (env_ok 6 "z") "u2" "u1" "xxxx" 9 db_docs eq_refl).
Defined.

Lemma clear_pdf_by_source_userid_frame_witness :
  db_up (env_ok 5 "e") = true ∧
  db_up (env_db_down 5 "e") = false ∧
  "u1" ≠ "u2" ∧
  (let d' := (clear_pdf_by_source_userid (env_ok 5 "e") "c.pdf" "u2"
                db_docs).2 in
   (clear_pdf_by_source_userid (env_ok 5 "e") "c.pdf" "u2" db_docs).1 = Ok tt ∧
   filter (λ r, PDFEmbedding.user_id r = "u1") (pdf_embeddings d') =
   filter (λ r, PDFEmbedding.user_id r = "u1") (pdf_embeddings db_docs) ∧
   filter (λ r, PDFEmbedding.source r = "b.pdf") (pdf_embeddings d') =
   filter (λ r, PDFEmbedding.source r = "b.pdf") (pdf_embeddings db_docs)) ∧
  clear_pdf_by_source_userid (env_db_down 5 "e") "c.pdf" "u2" db_docs =
    (Raise OperationalError, db_docs).
Proof.
  assert ("u1" ≠ "u2") as Hne by discriminate.
  split; [reflexivity|]. split; [reflexivity|]. split; [exact Hne|].
  destruct (clear_pdf_by_source_userid_frame (env_ok 5 "e") "c.pdf" "u2" db_docs)
    as (Hup & _ & Hother & Hsrc & _).
  destruct (clear_pdf_by_source_userid_frame (env_db_down 5 "e") "c.pdf" "u2"
              db_docs) as (_ & Hdown & _).
  split; [|exact (Hdown eq_refl)].
  split; [exact (proj1 (Hup eq_refl))|]. split.
  - exact (Hother "u1" Hne).
  - apply Hsrc. discriminate.
Defined.


Lemma clear_all_pdf_empties_witness :
  db_up (env_ok 5 "e") = true ∧
  db_up (env_ok 6 "z") = true ∧
  let d' := (clear_all_pdf (env_ok 5 "e") db_docs).2 in
  chat_history d' = chat_history db_docs ∧
  get_pdf_sources (distinct_engine := first_occurrence_engine)
    (env_ok 6 "z") d' = (Ok [], d') ∧
  ∀ u query (k : nat),
    retrieve_pdf_for_user abs_distance (engine := forward_scan_engine)
      (env_ok 6 "z") u query k d' = (Ok [], d').
Proof.
  split; [reflexivity|]. split; [reflexivity|].
  destruct (clear_all_pdf_empties abs_distance (engine := forward_scan_engine)
              (distinct_engine := first_occurrence_engine)
              (env_ok 5 "e") (env_ok 6 "z") db_docs eq_refl)
    as (Hchat & Hsources & Hretrieve).
  split; [exact Hchat|]. split; [exact (Hsources eq_refl)|exact Hretrieve].
Defined.

Lemma clearing_twice_changes_nothing_witness :
  db_up (env_ok 5 "e") = true ∧
  db_up (env_ok 6 "z") = true ∧
  clear_history_by_user (env_ok 6 "z") "u1"
    (clear_history_by_user (env_ok 5 "e") "u1" db_two_users).2 =
    (Ok tt, (clear_history_by_user (env_ok 5 "e") "u1" db_two_users).2) ∧
  clear_pdf_by_source (env_ok 6 "z") "doc.pdf"
    (clear_pdf_by_source (env_ok 5 "e") "doc.pdf" db_docs).2 =
    (Ok tt, (clear_pdf_by_source (env_ok 5 "e") "doc.pdf" db_docs).2).
Proof.
  split; [reflexivity|]. split; [reflexivity|].
  destruct (clearing_twice_changes_nothing (env_ok 5 "e") (env_ok 6 "z")
              db_two_users eq_refl eq_refl) as (Hhistory & _).
  destruct (clearing_twice_changes_nothing (env_ok 5 "e") (env_ok 6 "z")
              db_docs eq_refl eq_refl) as (_ & _ & Hsource & _).
  split; [exact (Hhistory "u1")|exact (Hsource "doc.pdf")].
Defined.

Lemma primary_keys_kept_witness :
  primary_keys db_docs ∧
  primary_keys (insert_new_chunks keys_str (env_ok 3 "p") five_chunks
                  db_docs).2 ∧
  primary_keys (insert_new_chunks keys_str (env_ok 3 "r") five_chunks
                  db_docs).2 ∧
  primary_keys (save_user_message (engine := forward_scan_engine)
                  (env_ok 3 "c") "u1" "hello" db_docs).2.
Proof.
  assert (primary_keys db_docs) as Hkeys.
  { split; apply (bool_decide_unpack _); vm_compute; exact I. }
  destruct (primary_keys_kept keys_str (engine := forward_scan_engine)
              (env_ok 3 "p") db_docs Hkeys) as (_ & Htaken & _).
  destruct (primary_keys_kept keys_str (engine := forward_scan_engine)
              (env_ok 3 "r") db_docs Hkeys) as (_ & Hfree & _).
  destruct (primary_keys_kept keys_str (engine := forward_scan_engine)
              (env_ok 3 "c") db_docs Hkeys) as (Hsave & _).
  split; [exact Hkeys|]. split; [exact (Htaken five_chunks)|].
  split; [exact (Hfree five_chunks)|exact (Hsave "u1" "hello")].
Defined.

